(** * Complaint intake backend: classifier, session store and audit log

    A shallow embedding of [backend/services/nlp_service.py],
    [backend/database.py], [backend/schemas.py] and [backend/app.py].

    - A Python [str] is a sequence of Unicode code points, so it is a
      [list N]; [len] is [length] and [s[:n]] is [firstn n s].
    - The SQLite database is a record of tables, every table a list of rows
      in insertion order; every database function takes the store and the
      value of [datetime.utcnow().isoformat()] and returns the new store.
    - An endpoint returns the response envelope together with the store. *)

From Stdlib Require Import Strings.String Strings.Ascii.
From Stdlib Require Import List Bool Arith NArith ZArith Lia.
From Stdlib Require Import Sorting.Sorted Sorting.Permutation.
Import ListNotations.

Set Implicit Arguments.

(** ** Python strings *)

Module PyStr.

(** A Python [str]: its code points. *)
Definition str := list N.

(** The bytes of a literal of this file. *)
Fixpoint bytes_of (s : string) : list N :=
  match s with
  | EmptyString => []
  | String a rest => N_of_ascii a :: bytes_of rest
  end.

(** UTF-8 decoding of the bytes of a literal: [need] continuation bytes are
    still expected for the code point accumulated in [acc]. *)
Fixpoint utf8_go (bs : list N) (need : nat) (acc : N) : str :=
  match bs with
  | [] => []
  | b :: rest =>
      match need with
      | O =>
          if (b <? 0x80)%N then b :: utf8_go rest 0 0%N
          else if (b <? 0xE0)%N then utf8_go rest 1 (N.land b 0x1F)
          else if (b <? 0xF0)%N then utf8_go rest 2 (N.land b 0x0F)
          else utf8_go rest 3 (N.land b 0x07)
      | S n =>
          let acc' := (acc * 64 + N.land b 0x3F)%N in
          match n with
          | O => acc' :: utf8_go rest 0 0%N
          | S _ => utf8_go rest n acc'
          end
      end
  end.

(** [py "..."] is the Python string written with the same literal in a
    UTF-8 source file. *)
Definition py (s : string) : str := utf8_go (bytes_of s) 0 0%N.
Arguments py s%_string.

(** [a == b] on strings. *)
Fixpoint str_eqb (a b : str) : bool :=
  match a, b with
  | [], [] => true
  | x :: a', y :: b' => (x =? y)%N && str_eqb a' b'
  | _, _ => false
  end.

(** [s.startswith(k)]. *)
Fixpoint startswith (s k : str) {struct k} : bool :=
  match k, s with
  | [], _ => true
  | _ :: _, [] => false
  | x :: k', y :: s' => (x =? y)%N && startswith s' k'
  end.

(** [k in s]: [k] occurs in [s] as a contiguous run of code points. *)
Fixpoint contains (s k : str) : bool :=
  startswith s k ||
  match s with
  | [] => false
  | _ :: s' => contains s' k
  end.

(** [s.endswith(k)]. *)
Definition endswith (s k : str) : bool := startswith (rev s) (rev k).

(** [any(k in s for k in keywords)]. *)
Definition any_in (keywords : list str) (s : str) : bool :=
  existsb (contains s) keywords.

(** [str.isspace] on one code point: the white space table of CPython
    ([_PyUnicode_IsWhitespace]), which [strip] and [rstrip] use. *)
Definition isspace (c : N) : bool :=
  ((0x09 <=? c) && (c <=? 0x0D) || (0x1C <=? c) && (c <=? 0x20)
   || (c =? 0x85) || (c =? 0xA0) || (c =? 0x1680)
   || (0x2000 <=? c) && (c <=? 0x200A)
   || (c =? 0x2028) || (c =? 0x2029) || (c =? 0x202F) || (c =? 0x205F)
   || (c =? 0x3000))%N.

Fixpoint drop_while (p : N -> bool) (s : str) : str :=
  match s with
  | [] => []
  | c :: rest => if p c then drop_while p rest else s
  end.

(** [s.lstrip()], [s.rstrip()] and [s.strip()]. *)
Definition lstrip (s : str) : str := drop_while isspace s.
Definition rstrip (s : str) : str := rev (drop_while isspace (rev s)).
Definition strip (s : str) : str := rstrip (lstrip s).

(** [s.lower()] goes through the string once and replaces every code point
    by its lower-case form, which may be several code points and which, for
    the Greek capital sigma, depends on the text around it.  The case table
    of the Unicode database is the argument [lower_cp]:
    [lower_cp pre c post] is what [c] becomes between [pre] and [post]. *)
Fixpoint lower_from (lower_cp : str -> N -> str -> str) (pre s : str) : str :=
  match s with
  | [] => []
  | c :: post => lower_cp pre c post ++ lower_from lower_cp (pre ++ [c]) post
  end.

Definition lower (lower_cp : str -> N -> str -> str) (s : str) : str :=
  lower_from lower_cp [] s.

(** The Hangul syllables block, whose code points have no case. *)
Definition is_hangul (c : N) : bool := ((0xAC00 <=? c) && (c <=? 0xD7A3))%N.

(** The case table restricted to ASCII: [A-Z] to [a-z], the rest fixed. *)
Definition ascii_lower_cp (pre : str) (c : N) (post : str) : str :=
  if ((0x41 <=? c) && (c <=? 0x5A))%N then [(c + 32)%N] else [c].

(** The order of the BINARY collation on TEXT values: code point by code
    point, a proper prefix first. *)
Fixpoint str_leb (a b : str) : bool :=
  match a, b with
  | [], _ => true
  | _ :: _, [] => false
  | x :: a', y :: b' =>
      if (x <? y)%N then true
      else if (y <? x)%N then false
      else str_leb a' b'
  end.

(** The mathematical reading of [k in s]. *)
Definition substring (k s : str) : Prop :=
  exists pre post, s = pre ++ k ++ post.

(** Some keyword of the list occurs in the text. *)
Definition matches (keywords : list str) (s : str) : Prop :=
  exists k, In k keywords /\ substring k s.

End PyStr.
Import PyStr.

(** ** Python values *)

(** The values that the dictionaries of this program hold, and a
    dictionary with its keys in insertion order. *)
Inductive pyvalue :=
| PyNone
| PyBool (b : bool)
| PyInt (z : Z)
| PyStr (s : str).

Definition pydict := list (str * pyvalue).

(** A call returns a value or raises: [sqlite3.IntegrityError] from the
    database, whose transaction is then rolled back, or the
    [HTTPException] of an endpoint. *)
Inductive exn := IntegrityError | HTTPException (status_code : Z).

Inductive result (A : Type) := Ok (a : A) | Raise (e : exn).
Arguments Ok {A} a.
Arguments Raise {A} e.

(** ** schemas.py *)

Record ApiError := { code : str; message : str }.

Record ApiResponse (T : Type) := {
  success : bool;
  data : option T;
  error : option ApiError
}.

Record StartRequest := { sr_debug_mode : bool }.

Record StartResponse := { st_session_uuid : str; st_status : str }.

Record SttResponse := { stt_raw_text : str }.

Record AnalyzeRequest := { ar_raw_text : str }.

Record AnalyzeResponse := {
  resp_summary_text : str;
  resp_category : str;
  resp_severity : str;
  resp_handling_type : str;
  resp_handling_desc : str
}.

Record ConfirmRequest := { cr_is_confirmed : bool }.

Record ConfirmResponse := { next_step : str }.

Record FinalizeRequest := {
  fr_raw_text : str;
  fr_summary_text : str;
  fr_category : str;
  fr_severity : str;
  fr_handling_type : str;
  fr_handling_desc : option str;
  fr_is_confirmed : bool
}.

(** The body of a finalize request as it is sent: the two fields that the
    model declares with a default may be left out. *)
Record FinalizeBody := {
  fb_raw_text : str;
  fb_summary_text : str;
  fb_category : str;
  fb_severity : str;
  fb_handling_type : str;
  fb_handling_desc : option (option str);
  fb_is_confirmed : option bool
}.

(** Validation of the body: [handling_desc] defaults to [None] and
    [is_confirmed] to [True]. *)
Definition FinalizeRequest_of_body (b : FinalizeBody) : FinalizeRequest :=
  {| fr_raw_text := fb_raw_text b;
     fr_summary_text := fb_summary_text b;
     fr_category := fb_category b;
     fr_severity := fb_severity b;
     fr_handling_type := fb_handling_type b;
     fr_handling_desc :=
       match fb_handling_desc b with Some d => d | None => None end;
     fr_is_confirmed :=
       match fb_is_confirmed b with Some c => c | None => true end |}.

Record FinalizeResponse := { user_message : str; redirect : str }.

(** [LogEntry]: what the log listing returns for one row.  The payload
    column holds the [json.dumps] text of a dictionary; the model keeps the
    dictionary that the text renders. *)
Record LogEntry := {
  step : str;
  level : str;
  le_message : str;
  payload : option pydict;
  created_at : str
}.

(** ** database.py *)

Module Database.

(** The tables, rows in insertion order.  The table [complaint_handling] is
    created by [init_db] and no function touches it. *)
Record session_row := {
  s_id : Z;
  s_session_uuid : str;
  s_started_at : str;
  s_ended_at : option str;
  s_debug_mode : Z;
  s_status : str
}.

Record complaint_row := {
  c_id : Z;
  c_session_uuid : str;
  c_raw_text : str;
  c_summary_text : str;
  c_category : str;
  c_severity : str;
  c_handling_type : str;
  c_handling_desc : option str;
  c_is_confirmed : Z;
  c_created_at : str
}.

Record log_row := {
  l_id : Z;
  l_session_uuid : str;
  l_step : str;
  l_level : str;
  l_message : str;
  l_payload : option pydict;
  l_created_at : str
}.

Record store := {
  conversation_session : list session_row;
  complaint : list complaint_row;
  log_entry : list log_row
}.

(** The database after [init_db] on a new file. *)
Definition init_db : store :=
  {| conversation_session := []; complaint := []; log_entry := [] |}.

(** [INTEGER PRIMARY KEY AUTOINCREMENT] in a table that never loses a row. *)
Definition next_id (A : Type) (rows : list A) : Z := Z.of_nat (length rows) + 1.

(** The row of a session, if the table has one. *)
Definition find_session (db : store) (session_uuid : str)
    : option session_row :=
  find (fun r => str_eqb (s_session_uuid r) session_uuid)
       (conversation_session db).

(** [create_session]: [session_uuid] is declared [UNIQUE], so a second row
    with the same identifier is refused.  [now] is the value of
    [datetime.utcnow().isoformat()], here and below. *)
Definition create_session (db : store) (now : str)
    (session_uuid : str) (debug_mode : bool) : result store :=
  match find_session db session_uuid with
  | Some _ => Raise IntegrityError
  | None =>
      Ok {| conversation_session :=
              conversation_session db ++
              [{| s_id := next_id (conversation_session db);
                  s_session_uuid := session_uuid;
                  s_started_at := now;
                  s_ended_at := None;
                  s_debug_mode := Z.b2z debug_mode;
                  s_status := py "IN_PROGRESS" |}];
            complaint := complaint db;
            log_entry := log_entry db |}
  end.

(** What [update_session_status] writes into a row of the session. *)
Definition with_status (now status : str) (r : session_row) : session_row :=
  {| s_id := s_id r;
     s_session_uuid := s_session_uuid r;
     s_started_at := s_started_at r;
     s_ended_at := Some now;
     s_debug_mode := s_debug_mode r;
     s_status := status |}.

(** [update_session_status]: an [UPDATE] of the rows whose identifier
    matches; when none does, nothing changes and nothing is raised. *)
Definition update_session_status (db : store) (now : str)
    (session_uuid : str) (status : str) : store :=
  {| conversation_session :=
       map (fun r =>
              if str_eqb (s_session_uuid r) session_uuid
              then with_status now status r
              else r)
           (conversation_session db);
     complaint := complaint db;
     log_entry := log_entry db |}.

(** The dictionary given to [insert_complaint]: six keys are read with
    [data[...]], two with [data.get(...)], which may be missing. *)
Record complaint_data := {
  cd_session_uuid : str;
  cd_raw_text : str;
  cd_summary_text : str;
  cd_category : str;
  cd_severity : str;
  cd_handling_type : str;
  cd_handling_desc : option str;
  cd_is_confirmed : option bool
}.

(** [insert_complaint]: the foreign key to the session table is declared,
    and SQLite does not enforce it unless the connection turns
    [foreign_keys] on, which [get_connection] does not do. *)
Definition insert_complaint (db : store) (now : str) (data : complaint_data)
    : Z * store :=
  let complaint_id := next_id (complaint db) in
  (complaint_id,
   {| conversation_session := conversation_session db;
      complaint :=
        complaint db ++
        [{| c_id := complaint_id;
            c_session_uuid := cd_session_uuid data;
            c_raw_text := cd_raw_text data;
            c_summary_text := cd_summary_text data;
            c_category := cd_category data;
            c_severity := cd_severity data;
            c_handling_type := cd_handling_type data;
            c_handling_desc := cd_handling_desc data;
            c_is_confirmed :=
              Z.b2z (match cd_is_confirmed data with
                     | Some b => b
                     | None => false
                     end);
            c_created_at := now |}];
      log_entry := log_entry db |}).

Definition insert_log (db : store) (now : str) (session_uuid : str)
    (step level message : str) (payload : option pydict) : store :=
  {| conversation_session := conversation_session db;
     complaint := complaint db;
     log_entry :=
       log_entry db ++
       [{| l_id := next_id (log_entry db);
           l_session_uuid := session_uuid;
           l_step := step;
           l_level := level;
           l_message := message;
           l_payload := payload;
           l_created_at := now |}] |}.

(** [ORDER BY created_at ASC].  The column holds [isoformat] texts, which
    are no numerals, so they are kept as texts and compared with [str_leb].
    Rows are inserted one by one, each before the first row that is not
    smaller; rows with the same [created_at], whose order SQLite leaves
    open, stay in table order. *)
Fixpoint insert_by_created_at (r : log_row) (rows : list log_row)
    : list log_row :=
  match rows with
  | [] => [r]
  | r' :: rest =>
      if str_leb (l_created_at r) (l_created_at r') then r :: rows
      else r' :: insert_by_created_at r rest
  end.

Definition order_by_created_at (rows : list log_row) : list log_row :=
  fold_right insert_by_created_at [] rows.

(** The order of [ORDER BY created_at ASC] between two rows. *)
Definition created_le (a b : log_row) : Prop :=
  str_leb (l_created_at a) (l_created_at b) = true.

(** The five selected columns of a row, as [dict(row)]. *)
Definition select_columns (r : log_row) : LogEntry :=
  {| step := l_step r;
     level := l_level r;
     le_message := l_message r;
     payload := l_payload r;
     created_at := l_created_at r |}.

(** The rows that the query keeps: [if session_uuid:] is false for [None]
    and for the empty string, and then there is no [WHERE] clause. *)
Definition where_session (session_uuid : option str) (rows : list log_row)
    : list log_row :=
  match session_uuid with
  | Some (c :: u) =>
      filter (fun r => str_eqb (l_session_uuid r) (c :: u)) rows
  | Some [] | None => rows
  end.

Definition fetch_logs (db : store) (session_uuid : option str)
    : list LogEntry :=
  map select_columns
      (order_by_created_at (where_session session_uuid (log_entry db))).

(** The same order between two entries of the listing. *)
Definition entry_le (a b : LogEntry) : Prop :=
  str_leb (created_at a) (created_at b) = true.

End Database.
Import Database.

(** ** nlp_service.py *)

Definition EMERGENCY_KEYWORDS : list str :=
  [py "쓰러"; py "화재"; py "불이"; py "폭발"; py "위험"; py "위독";
   py "사고"; py "피가"; py "폭행"].
Definition FACILITY_KEYWORDS : list str :=
  [py "가로등"; py "도로"; py "보도"; py "나무"; py "쓰러져"; py "전선";
   py "쓰레기"; py "시설"; py "건물"].
Definition PENSION_KEYWORDS : list str :=
  [py "연금"; py "국민연금"; py "기초연금"; py "수급"; py "복지"].
Definition MENTAL_KEYWORDS : list str :=
  [py "우울"; py "불안"; py "상담"; py "심리"; py "괴로"; py "힘들";
   py "죽고 싶"].

Record AnalysisResult := {
  summary_text : str;
  category : str;
  severity : str;
  handling_type : str;
  handling_desc : str
}.

Definition ELLIPSIS : str := py "…".

(** [summarize]: the stripped text when it has at most 50 code points,
    otherwise its first 120 code points, right-stripped, and the marker. *)
Definition summarize (raw_text : str) : str :=
  let raw_text := strip raw_text in
  if length raw_text <=? 50 then raw_text
  else rstrip (firstn 120 raw_text) ++ ELLIPSIS.

Definition decide_handling (category severity : str) : str * str :=
  if str_eqb category (py "FACILITY") then
    if str_eqb severity (py "EMERGENCY") then
      (py "ON_SITE_VISIT",
       py "담당자가 현장을 방문하여 쓰러진 나무나 위험 요소를 즉시 확인합니다.")
    else
      (py "ON_SITE_VISIT",
       py "시설 담당자가 현장을 확인하고 필요한 조치를 진행합니다.")
  else if str_eqb category (py "PENSION") then
    (py "INFO_GUIDE",
     py "국민연금이나 복지 안내를 확인한 뒤 필요한 정보를 안내드립니다.")
  else if str_eqb category (py "MENTAL_HEALTH") then
    if str_eqb severity (py "EMERGENCY") then
      (py "COUNSELOR_CONNECT",
       py "위기 징후가 감지되어 전문 상담 연결을 도와드립니다.")
    else
      (py "LISTENING_SUPPORT",
       py "상담사를 연결하거나 가까운 지원 기관 연락처를 안내드립니다.")
  else
    (py "INFO_GUIDE",
     py "민원 내용을 담당자에게 전달하고 추가 안내를 제공합니다.").

Definition format_user_message (result : AnalysisResult) : str :=
  py "말씀해 주신 내용은 '" ++ summary_text result ++ py "'로 정리되었어요. "
  ++ py "카테고리: " ++ category result ++ py ", 긴급도: " ++ severity result
  ++ py " 기준으로 " ++ py "처리 유형 '" ++ handling_type result
  ++ py "'을 안내합니다.".

(** [x or ""] and [if x:] on an optional string and on a string. *)
Definition or_empty (x : option str) : str :=
  match x with
  | Some (c :: s) => c :: s
  | Some [] | None => []
  end.

Definition truthy (s : str) : bool :=
  match s with
  | [] => false
  | _ :: _ => true
  end.

(** [if v:] on a value. *)
Definition py_truthy (v : pyvalue) : bool :=
  match v with
  | PyNone => false
  | PyBool b => b
  | PyInt z => negb (z =? 0)%Z
  | PyStr s => truthy s
  end.

(** ** services/whisper_service.py *)

Module WhisperService.

(** What the call of the transcription service does inside the [try]: it
    raises, or it returns an object whose attribute [text], when there is
    one, holds some value. *)
Inductive transcription :=
| CreateRaises
| Transcript (text : option pyvalue).

(** [getattr(transcript, "text", "").strip()]: a value that is not a string
    has no [strip], and the exception is caught with the others. *)
Definition stripped_text (text : option pyvalue) : option str :=
  match text with
  | None => Some (strip [])
  | Some (PyStr s) => Some (strip s)
  | Some _ => None
  end.

(** The text of the offline fallback. *)
Definition placeholder (filename digest : str) : str :=
  py "음성 메모를 인식했습니다(" ++ filename ++ py ", " ++ digest ++ py ").".

(** [transcribe_audio].  [OpenAI] tells whether the optional import
    succeeded, [create api_key filename audio_bytes] is the outcome of the
    call of the service and [sha256_hexdigest] is
    [hashlib.sha256(...).hexdigest()]. *)
Definition transcribe_audio (OpenAI : bool)
    (create : str -> str -> list Byte.byte -> transcription)
    (sha256_hexdigest : list Byte.byte -> str)
    (audio_bytes : list Byte.byte) (filename : str) (api_key : option str)
    : str :=
  let fallback :=
    let digest := firstn 8 (sha256_hexdigest audio_bytes) in
    placeholder filename digest in
  if OpenAI && truthy (or_empty api_key) then
    match create (or_empty api_key) filename audio_bytes with
    | CreateRaises => fallback
    | Transcript text =>
        match stripped_text text with
        | Some text => if truthy text then text else fallback
        | None => fallback
        end
    end
  else fallback.

End WhisperService.

(** ** speaker/stt_whisper.py *)

Module SttWhisper.

(** What the call of the service returns with [response_format="text"]: a
    string, or an object with an optional attribute [text] and its [str],
    unless the call raises. *)
Inductive response :=
| CreateRaises
| RespStr (s : str)
| RespObject (text : option pyvalue) (as_str : str).

(** [_call_whisper]: every exception, the missing [strip] of a value that
    is not a string among them, gives the empty string. *)
Definition _call_whisper (resp : response) : str :=
  match resp with
  | CreateRaises => []
  | RespStr s => strip s
  | RespObject text as_str =>
      let attr := match text with Some v => v | None => PyStr [] end in
      let text := if py_truthy attr then attr else PyStr as_str in
      match text with
      | PyStr s => strip s
      | _ => []
      end
  end.

(** What the file system answers for a path: nothing is there, opening it
    raises, or it opens on some bytes. *)
Inductive path_state :=
| Missing
| Unreadable
| Readable (content : list Byte.byte).

(** [transcribe_file]: [create name content language] is the outcome of the
    call for a file object with that name and content. *)
Definition transcribe_file
    (create : option str -> list Byte.byte -> str -> response)
    (fs : str -> path_state) (path language : str) : str :=
  match fs path with
  | Missing => []
  | Unreadable => []
  | Readable content => _call_whisper (create (Some path) content language)
  end.

(** [transcribe_bytes]: the buffer gets a name when [file_name] is given
    and is not empty. *)
Definition transcribe_bytes
    (create : option str -> list Byte.byte -> str -> response)
    (audio_bytes : list Byte.byte) (language : str) (file_name : option str)
    : str :=
  match audio_bytes with
  | [] => []
  | _ :: _ =>
      let name :=
        if truthy (or_empty file_name) then Some (or_empty file_name)
        else None in
      _call_whisper (create name audio_bytes language)
  end.

End SttWhisper.

(** ** speaker/vad.py *)

Module Vad.

Local Open Scope Z_scope.

(** The number of elements of [range(start, stop, step)]. *)
Definition range_len (start stop step : Z) : Z :=
  if (0 <? step)%Z then
    if (start <? stop)%Z then (stop - start - 1) / step + 1 else 0
  else if (step <? 0)%Z then
    if (stop <? start)%Z then (start - stop - 1) / (- step) + 1 else 0
  else 0.

(** [range(start, stop, step)] for a step that is not zero. *)
Definition py_range (start stop step : Z) : list Z :=
  map (fun i => start + Z.of_nat i * step)
      (seq 0%nat (Z.to_nat (range_len start stop step))).

(** What [trim_silence] returns: the audio itself or the slice
    [audio[start:end]]. *)
Inductive trimmed :=
| Whole
| Slice (start stop : Z).

(** [trim_silence]: [len_audio] is [len(audio)], in milliseconds, and
    [loud ms] is the test [audio[ms:ms + 10].dBFS > silence_thresh]. *)
Definition trim_silence (len_audio : Z) (loud : Z -> bool) (padding_ms : Z)
    : trimmed :=
  if (len_audio <? 2 * padding_ms)%Z then Whole
  else
    let start :=
      match find loud (py_range 0 len_audio 10) with
      | Some ms => Z.max (ms - padding_ms) 0
      | None => 0
      end in
    let stop :=
      match find loud (py_range (len_audio - 10) 0 (-10)) with
      | Some ms => Z.min (ms + padding_ms) len_audio
      | None => len_audio
      end in
    Slice start stop.

(** One dictionary of the list that [split_into_chunks] returns. *)
Record chunk_info (A F : Type) := {
  index : Z;
  start_sec : F;
  end_sec : F;
  audio : A
}.

(** The loop of [split_into_chunks] from the chunk number [idx] on:
    [ms_len chunk] is [len(chunk)] and [seconds ms] is [ms / 1000.0]. *)
Fixpoint number_chunks (A F : Type) (ms_len : A -> Z) (seconds : Z -> F)
    (idx cursor_ms : Z) (chunks : list A) : list (chunk_info A F) :=
  match chunks with
  | [] => []
  | chunk :: rest =>
      let duration_ms := ms_len chunk in
      {| index := idx;
         start_sec := seconds cursor_ms;
         end_sec := seconds (cursor_ms + duration_ms);
         audio := chunk |}
      :: number_chunks ms_len seconds (idx + 1) (cursor_ms + duration_ms) rest
  end.

(** What the file system and the audio library answer for a path:
    nothing is there, something is there that [AudioSegment.from_file]
    raises on (a directory, a file it cannot decode), or a file that it
    decodes. *)
Inductive path_state (Sound : Type) :=
| NoSuchPath
| FromFileRaises
| Decodes (sound : Sound).
Arguments NoSuchPath {Sound}.
Arguments FromFileRaises {Sound}.
Arguments Decodes {Sound} sound.

(** A call returns, raises [FileNotFoundError] itself, or lets the
    exception of a library call through. *)
Inductive outcome (A : Type) :=
| Returns (a : A)
| FileNotFoundError
| LibraryError.
Arguments Returns {A} a.
Arguments FileNotFoundError {A}.
Arguments LibraryError {A}.

(** [load_audio]. *)
Definition load_audio (Sound : Type) (fs : str -> path_state Sound)
    (path : str) : outcome Sound :=
  match fs path with
  | NoSuchPath => FileNotFoundError
  | FromFileRaises => LibraryError
  | Decodes sound => Returns sound
  end.

(** [split_into_chunks]: [split_on_silence sound min_silence_len
    silence_thresh keep_silence] is the list of chunks that the library
    call returns, or [None] when it raises. *)
Definition split_into_chunks (Sound A F : Type) (ms_len : A -> Z)
    (seconds : Z -> F) (fs : str -> path_state Sound)
    (split_on_silence : Sound -> Z -> Z -> Z -> option (list A))
    (path : str) (min_silence_len silence_thresh keep_silence : Z)
    : outcome (list (chunk_info A F)) :=
  match load_audio fs path with
  | Returns sound =>
      match split_on_silence sound min_silence_len silence_thresh
              keep_silence with
      | Some chunks => Returns (number_chunks ms_len seconds 0 0 chunks)
      | None => LibraryError
      end
  | FileNotFoundError => FileNotFoundError
  | LibraryError => LibraryError
  end.

(** The duration of the first [n] chunks. *)
Definition elapsed_ms (A : Type) (ms_len : A -> Z) (n : nat) (chunks : list A)
    : Z :=
  fold_right Z.add 0%Z (map ms_len (firstn n chunks)).

End Vad.

Section Backend.

(** The lower-case table of the Unicode database that [str.lower] reads. *)
Variable lower_cp : str -> N -> str -> str.

(** A Hangul syllable has no case: [lower] leaves it as it is. *)
Hypothesis lower_hangul :
  forall pre c post, is_hangul c = true -> lower_cp pre c post = [c].

(** [lowered] is computed and the keywords are looked up in [raw_text]. *)
Definition detect_category (raw_text : str) : str :=
  let lowered := lower lower_cp raw_text in
  if any_in MENTAL_KEYWORDS raw_text then py "MENTAL_HEALTH"
  else if any_in PENSION_KEYWORDS raw_text then py "PENSION"
  else if any_in FACILITY_KEYWORDS raw_text then py "FACILITY"
  else py "OTHER".

Definition detect_severity (raw_text category : str) : str :=
  let normalized := lower lower_cp raw_text in
  if any_in EMERGENCY_KEYWORDS normalized then py "EMERGENCY"
  else if str_eqb category (py "MENTAL_HEALTH")
          && contains normalized (py "힘들") then py "NORMAL"
  else if 0 <? length raw_text then py "NORMAL" else py "LOW".

Definition analyze_text (raw_text : str) : AnalysisResult :=
  let category := detect_category raw_text in
  let severity := detect_severity raw_text category in
  let '(handling_type, handling_desc) := decide_handling category severity in
  {| summary_text := summarize raw_text;
     category := category;
     severity := severity;
     handling_type := handling_type;
     handling_desc := handling_desc |}.

(** ** app.py *)

Definition ok (T : Type) (data : T) : ApiResponse T :=
  {| success := true; data := Some data; error := None |}.

Definition fail (T : Type) (code message : str) : ApiResponse T :=
  {| success := false;
     data := None;
     error := Some {| code := code; message := message |} |}.

(** [result.__dict__]. *)
Definition AnalysisResult_dict (r : AnalysisResult) : pydict :=
  [(py "summary_text", PyStr (summary_text r));
   (py "category", PyStr (category r));
   (py "severity", PyStr (severity r));
   (py "handling_type", PyStr (handling_type r));
   (py "handling_desc", PyStr (handling_desc r))].

(** The response built from the fields of [result.__dict__]. *)
Definition AnalyzeResponse_of (r : AnalysisResult) : AnalyzeResponse :=
  {| resp_summary_text := summary_text r;
     resp_category := category r;
     resp_severity := severity r;
     resp_handling_type := handling_type r;
     resp_handling_desc := handling_desc r |}.

(** An endpoint returns what it answers, or the exception it lets through,
    and the database it leaves.  Every [t...] argument is the reading of
    the clock by one database call, in the order of the calls. *)

(** [session_uuid] is the value of [str(uuid.uuid4())]. *)
Definition start_conversation (db : store) (session_uuid : str)
    (t_session t_log : str) (payload : StartRequest)
    : result (ApiResponse StartResponse) * store :=
  match create_session db t_session session_uuid (sr_debug_mode payload) with
  | Raise e => (Raise e, db)
  | Ok db1 =>
      let db2 :=
        insert_log db1 t_log session_uuid (py "SESSION") (py "INFO")
          (py "새로운 세션이 생성되었습니다.")
          (Some [(py "debug_mode", PyBool (sr_debug_mode payload))]) in
      (Ok (ok {| st_session_uuid := session_uuid;
                 st_status := py "IN_PROGRESS" |}), db2)
  end.

(** [audio] is [None] when reading the upload raises, and otherwise the
    number of bytes read with the text that [transcribe_audio] returns. *)
Definition stt_conversation (db : store) (t_log : str) (session_uuid : str)
    (audio : option (Z * str))
    : result (ApiResponse SttResponse) * store :=
  match audio with
  | None => (Raise (HTTPException 400), db)
  | Some (size, raw_text) =>
      let db1 :=
        insert_log db t_log session_uuid (py "STT") (py "INFO")
          (py "음성 인식이 완료되었습니다.")
          (Some [(py "raw_text", PyStr raw_text); (py "size", PyInt size)]) in
      (Ok (ok {| stt_raw_text := raw_text |}), db1)
  end.

Definition analyze_conversation (db : store) (t_log : str)
    (session_uuid : str) (payload : AnalyzeRequest)
    : result (ApiResponse AnalyzeResponse) * store :=
  if negb (truthy (ar_raw_text payload)) then
    (Ok (fail AnalyzeResponse (py "INVALID_TEXT")
           (py "분석할 텍스트가 없습니다.")), db)
  else
    let result := analyze_text (ar_raw_text payload) in
    let db1 :=
      insert_log db t_log session_uuid (py "ANALYZE") (py "INFO")
        (py "요약 및 분류가 완료되었습니다.")
        (Some (AnalysisResult_dict result)) in
    (Ok (ok (AnalyzeResponse_of result)), db1).

Definition confirm_conversation (db : store) (t_log : str)
    (session_uuid : str) (payload : ConfirmRequest)
    : result (ApiResponse ConfirmResponse) * store :=
  let db1 :=
    insert_log db t_log session_uuid (py "CONFIRM") (py "INFO")
      (py "사용자 확인 결과")
      (Some [(py "is_confirmed", PyBool (cr_is_confirmed payload))]) in
  (Ok (ok {| next_step :=
               if cr_is_confirmed payload then py "SAVE_AND_NOTIFY"
               else py "RETRY" |}), db1).

(** The dictionary made of [session_uuid] and of [payload.model_dump()]:
    every field of the request is one of its keys. *)
Definition complaint_dict (session_uuid : str) (payload : FinalizeRequest)
    : complaint_data :=
  {| cd_session_uuid := session_uuid;
     cd_raw_text := fr_raw_text payload;
     cd_summary_text := fr_summary_text payload;
     cd_category := fr_category payload;
     cd_severity := fr_severity payload;
     cd_handling_type := fr_handling_type payload;
     cd_handling_desc := fr_handling_desc payload;
     cd_is_confirmed := Some (fr_is_confirmed payload) |}.

Definition finalize_conversation (db : store)
    (t_complaint t_session t_log : str)
    (session_uuid : str) (payload : FinalizeRequest)
    : result (ApiResponse FinalizeResponse) * store :=
  let '(complaint_id, db1) :=
    insert_complaint db t_complaint (complaint_dict session_uuid payload) in
  let db2 := update_session_status db1 t_session session_uuid (py "COMPLETED") in
  let db3 :=
    insert_log db2 t_log session_uuid (py "DB_SAVE") (py "INFO")
      (py "민원이 저장되었습니다.")
      (Some [(py "complaint_id", PyInt complaint_id)]) in
  let user_message :=
    format_user_message
      {| summary_text := fr_summary_text payload;
         category := fr_category payload;
         severity := fr_severity payload;
         handling_type := fr_handling_type payload;
         handling_desc := or_empty (fr_handling_desc payload) |} in
  (Ok (ok {| user_message := user_message; redirect := py "MAIN" |}), db3).

(** A [LogEntry] built from a row keeps its five columns as they are. *)
Definition list_logs (db : store) (session_uuid : option str)
    : result (ApiResponse (list LogEntry)) * store :=
  let logs := fetch_logs db session_uuid in
  (Ok (ok (map (fun row => row) logs)), db).

(** One request to the service, with what the environment supplies for it:
    the clock readings, the fresh identifier, the uploaded audio. *)
Inductive request :=
| Start (session_uuid t_session t_log : str) (payload : StartRequest)
| Stt (t_log session_uuid : str) (audio : option (Z * str))
| Analyze (t_log session_uuid : str) (payload : AnalyzeRequest)
| Confirm (t_log session_uuid : str) (payload : ConfirmRequest)
| Finalize (t_complaint t_session t_log session_uuid : str)
    (payload : FinalizeBody)
| ListLogs (session_uuid : option str).

(** The database after a request. *)
Definition serve (db : store) (rq : request) : store :=
  match rq with
  | Start u t1 t2 p => snd (start_conversation db u t1 t2 p)
  | Stt t u a => snd (stt_conversation db t u a)
  | Analyze t u p => snd (analyze_conversation db t u p)
  | Confirm t u p => snd (confirm_conversation db t u p)
  | Finalize t1 t2 t3 u b =>
      snd (finalize_conversation db t1 t2 t3 u (FinalizeRequest_of_body b))
  | ListLogs u => snd (list_logs db u)
  end.

(** The database after a sequence of requests, the first one first. *)
Definition serve_all (db : store) (rqs : list request) : store :=
  fold_left serve rqs db.

(** The request is a finalize of the session [u]. *)
Definition completes (rq : request) (u : str) : bool :=
  match rq with
  | Finalize _ _ _ u' _ => str_eqb u' u
  | _ => false
  end.

(** The [ended_at] column of the session [u]: [None] when the table has no
    such session, [Some None] when the column is null. *)
Definition ended_at_of (db : store) (u : str) : option (option str) :=
  option_map s_ended_at (find_session db u).

(** [ended_at] is set exactly when the status is the terminal one. *)
Definition ended_iff_completed (r : session_row) : Prop :=
  s_ended_at r <> None <-> s_status r = py "COMPLETED".

(** An endpoint reports an unknown session: an envelope whose error has
    the code [NOT_FOUND], or an HTTP error with status 404. *)
Definition reports_not_found (T : Type) (r : result (ApiResponse T)) : Prop :=
  match r with
  | Ok resp => exists e, error resp = Some e /\ code e = py "NOT_FOUND"
  | Raise (HTTPException 404) => True
  | Raise _ => False
  end.

(** The complete transition as finalize invokes it: the call
    [update_session_status(session_uuid, "COMPLETED")], a statement that
    has no path on which it raises. *)
Definition complete (db : store) (now session_uuid : str) : result store :=
  Ok (update_session_status db now session_uuid (py "COMPLETED")).

(** A call fails: it raises. *)
Definition fails (A : Type) (r : result A) : Prop :=
  exists e, r = Raise e.

(** ** Notions for the properties *)

(** An envelope carries its data or its error, and [success] tells
    which. *)
Definition well_formed (T : Type) (resp : ApiResponse T) : Prop :=
  (success resp = true /\ data resp <> None /\ error resp = None) \/
  (success resp = false /\ data resp = None /\ error resp <> None).

(** The request is a finalize, of whatever session. *)
Definition is_finalize (rq : request) : bool :=
  match rq with
  | Finalize _ _ _ _ _ => true
  | _ => false
  end.

(** The request is a start or a finalize. *)
Definition writes_tables (rq : request) : bool :=
  match rq with
  | Start _ _ _ _ | Finalize _ _ _ _ _ => true
  | _ => false
  end.

(** The identifiers [1, 2, ..., n] of a table of [n] rows. *)
Definition consecutive (ids : list Z) : Prop :=
  ids = map Z.of_nat (seq 1 (length ids)).

(** A row written strictly before another one, by [created_at]. *)
Definition created_lt (a b : log_row) : Prop :=
  str_leb (l_created_at b) (l_created_at a) = false.

(** The requests of one whole conversation, in order. *)
Definition conversation (u : str) (t : nat -> str) (debug : bool)
    (size : Z) (raw_text : str) (confirmed : bool) (body : FinalizeBody)
    : list request :=
  [Start u (t 0) (t 1) {| sr_debug_mode := debug |};
   Stt (t 2) u (Some (size, raw_text));
   Analyze (t 3) u {| ar_raw_text := raw_text |};
   Confirm (t 4) u {| cr_is_confirmed := confirmed |};
   Finalize (t 5) (t 6) (t 7) u body].

(** ** Sample data *)

(** The worked scenarios and the concrete inputs of the examples below. *)
Definition fallen_lamp : str := py "가로등이 쓰러져 있어서 위험해요".

Definition long_report : str :=
  py "우리 동네 공원 입구에 있는 가로등이 며칠 전부터 쓰러져 있어서 밤에 지나다니기가 너무 위험합니다. 아이들도 많이 다니는 길인데 전선까지 밖으로 나와 있어서 사고가 날까 봐 걱정이 됩니다. 빨리 확인해 주세요. 담당자분께서 꼭 연락 주시기 바랍니다.".

(** Two sessions started one second apart. *)
Definition two_sessions : store :=
  let db1 :=
    snd (start_conversation init_db (py "0b4c9f1e")
           (py "2024-05-01T09:00:00.000001") (py "2024-05-01T09:00:00.000002")
           {| sr_debug_mode := false |}) in
  snd (start_conversation db1 (py "7d2a6c33")
         (py "2024-05-01T09:00:01.000001") (py "2024-05-01T09:00:01.000002")
         {| sr_debug_mode := true |}).

(** A finalize body that leaves [handling_desc] out and declines. *)
Definition declined_body : FinalizeBody :=
  {| fb_raw_text := fallen_lamp;
     fb_summary_text := fallen_lamp;
     fb_category := py "FACILITY";
     fb_severity := py "EMERGENCY";
     fb_handling_type := py "ON_SITE_VISIT";
     fb_handling_desc := None;
     fb_is_confirmed := Some false |}.

(** The same body without [is_confirmed]. *)
Definition bare_body : FinalizeBody :=
  {| fb_raw_text := fallen_lamp;
     fb_summary_text := fallen_lamp;
     fb_category := py "FACILITY";
     fb_severity := py "EMERGENCY";
     fb_handling_type := py "ON_SITE_VISIT";
     fb_handling_desc := None;
     fb_is_confirmed := None |}.

(** * Properties *)

(** ** Strings *)

Lemma str_eqb_refl (a : str) : str_eqb a a = true.
Proof.
  induction a as [|x a IH]; simpl; [reflexivity|].
  now rewrite N.eqb_refl.
Qed.

Lemma str_eqb_eq (a b : str) : str_eqb a b = true <-> a = b.
Proof.
  split; [|intros ->; apply str_eqb_refl].
  revert b; induction a as [|x a IH]; intros [|y b]; simpl;
    try discriminate; [reflexivity|].
  intros H. apply andb_true_iff in H as [Hx Ha].
  apply N.eqb_eq in Hx. f_equal; auto.
Qed.

Lemma str_eqb_reflect (a b : str) : reflect (a = b) (str_eqb a b).
Proof.
  destruct (str_eqb a b) eqn:E; constructor.
  - now apply str_eqb_eq.
  - intros H. apply str_eqb_eq in H. congruence.
Qed.

Lemma startswith_app (k post : str) : startswith (k ++ post) k = true.
Proof.
  induction k as [|x k IH]; simpl; [reflexivity|].
  now rewrite N.eqb_refl.
Qed.

Lemma startswith_spec (s k : str) :
  startswith s k = true <-> exists post, s = k ++ post.
Proof.
  split.
  - revert s; induction k as [|x k IH]; intros s H.
    + now exists s.
    + destruct s as [|y s]; simpl in H; [discriminate|].
      apply andb_true_iff in H as [Hx Hs]. apply N.eqb_eq in Hx. subst y.
      destruct (IH _ Hs) as [post ->]. now exists post.
  - intros [post ->]. apply startswith_app.
Qed.

Lemma contains_startswith (s k : str) :
  startswith s k = true -> contains s k = true.
Proof.
  intros H. destruct s; simpl; now rewrite H.
Qed.

Lemma contains_spec (s k : str) : contains s k = true <-> substring k s.
Proof.
  unfold substring. split.
  - induction s as [|c s IH]; simpl; intros H.
    + rewrite orb_false_r in H. apply startswith_spec in H as [post H].
      now exists [], post.
    + apply orb_true_iff in H as [H|H].
      * apply startswith_spec in H as [post H]. now exists [], post.
      * destruct (IH H) as (pre & post & ->). now exists (c :: pre), post.
  - intros (pre & post & ->).
    induction pre as [|c pre IH].
    + apply contains_startswith. exact (startswith_app k post).
    + change (startswith ((c :: pre) ++ k ++ post) k
              || contains (pre ++ k ++ post) k = true).
      rewrite IH. apply orb_true_r.
Qed.

Lemma any_in_spec (keywords : list str) (s : str) :
  any_in keywords s = true <-> matches keywords s.
Proof.
  unfold any_in, matches. rewrite existsb_exists.
  split; intros (k & Hk & H); exists k; split; auto; now apply contains_spec.
Qed.

Lemma any_in_false (keywords : list str) (s : str) :
  ~ matches keywords s -> any_in keywords s = false.
Proof.
  intros H. destruct (any_in keywords s) eqn:E; [|reflexivity].
  now apply any_in_spec in E.
Qed.

Lemma endswith_app (body suffix : str) :
  endswith (body ++ suffix) suffix = true.
Proof.
  unfold endswith. rewrite rev_app_distr. apply startswith_app.
Qed.

Lemma drop_while_length (p : N -> bool) (s : str) :
  length (drop_while p s) <= length s.
Proof.
  induction s as [|c s IH]; simpl; [lia|].
  destruct (p c); simpl; lia.
Qed.

Lemma rstrip_length (s : str) : length (rstrip s) <= length s.
Proof.
  unfold rstrip. rewrite length_rev.
  rewrite <- (length_rev s). apply drop_while_length.
Qed.

(** [rstrip] leaves a prefix of the string. *)
Lemma drop_while_suffix (p : N -> bool) (s : str) :
  exists dropped, s = dropped ++ drop_while p s /\ forallb p dropped = true.
Proof.
  induction s as [|c s (d & Hd & Hp)]; simpl.
  - now exists [].
  - destruct (p c) eqn:E.
    + exists (c :: d). simpl. rewrite E, Hp. split; [now f_equal|reflexivity].
    + now exists [].
Qed.

Lemma rstrip_prefix (s : str) :
  exists spaces, s = rstrip s ++ spaces /\ forallb isspace spaces = true.
Proof.
  unfold rstrip.
  destruct (drop_while_suffix isspace (rev s)) as (d & Hd & Hp).
  exists (rev d). split.
  - rewrite <- rev_app_distr, <- Hd. now rewrite rev_involutive.
  - rewrite forallb_forall in *. intros x Hx. apply Hp. now apply in_rev.
Qed.

(** ** summarize *)

Lemma summarize_short (raw_text : str) :
  length (strip raw_text) <= 50 -> summarize raw_text = strip raw_text.
Proof.
  unfold summarize. intros H. apply Nat.leb_le in H. now rewrite H.
Qed.

Lemma summarize_long (raw_text : str) :
  50 < length (strip raw_text) ->
  summarize raw_text = rstrip (firstn 120 (strip raw_text)) ++ ELLIPSIS.
Proof.
  unfold summarize. intros H. apply Nat.leb_gt in H. now rewrite H.
Qed.

(** C4. [summarize] returns the stripped text as it is when that has at
    most 50 characters; when it has more, it returns the first 120
    characters of the stripped text, white space at their end removed,
    followed by the ellipsis.  The cut is at the 120th character whatever
    stands there: what is kept, with the white space that was removed, is
    exactly the first 120 characters. *)
Theorem summarize_spec (raw_text : str) :
  (length (strip raw_text) <= 50 -> summarize raw_text = strip raw_text) /\
  (50 < length (strip raw_text) ->
   summarize raw_text = rstrip (firstn 120 (strip raw_text)) ++ ELLIPSIS /\
   exists spaces,
     firstn 120 (strip raw_text)
       = rstrip (firstn 120 (strip raw_text)) ++ spaces /\
     forallb isspace spaces = true).
Proof.
  split; intros H.
  - now apply summarize_short.
  - split; [now apply summarize_long|]. apply rstrip_prefix.
Qed.

(** C5, as amended. When the stripped text has more than 50 characters,
    the summary ends with the ellipsis and what stands before the ellipsis
    has at most 120 characters. *)
Theorem summarize_long_ellipsis (raw_text : str) :
  50 < length (strip raw_text) ->
  endswith (summarize raw_text) ELLIPSIS = true /\
  exists body,
    summarize raw_text = body ++ ELLIPSIS /\ length body <= 120.
Proof.
  intros H. rewrite (summarize_long _ H). split.
  - apply endswith_app.
  - eexists. split; [reflexivity|].
    etransitivity; [apply rstrip_length|]. apply firstn_le_length.
Qed.

(** C5 as it is written fails: a text of more than 50 characters, of which
    at most 50 remain once stripped, is returned stripped and without the
    ellipsis. *)
Lemma summarize_long_input_no_ellipsis :
  let raw_text := py "가로등" ++ repeat 32%N 50 in
  50 < length raw_text /\
  summarize raw_text = py "가로등" /\
  endswith (summarize raw_text) ELLIPSIS = false.
Proof. vm_compute. repeat split; lia. Qed.

(** ** decide_handling *)

(** Goals with string literals are taken apart by hand: deciding that two
    different literals are different is left to [vm_compute]. *)
Ltac split_all :=
  repeat match goal with
  | |- _ /\ _ => split
  | |- ~ _ => intro
  | |- _ -> _ => intro
  end.

Ltac literals_differ H := vm_compute in H; discriminate H.

(** C1. [decide_handling] is the fixed table: FACILITY gives ON_SITE_VISIT
    whatever the severity, with a description of its own when the severity
    is EMERGENCY; PENSION gives INFO_GUIDE; MENTAL_HEALTH gives
    COUNSELOR_CONNECT when the severity is EMERGENCY and LISTENING_SUPPORT
    otherwise; every other category gives INFO_GUIDE with the forwarding
    description; and the description is never empty. *)
Theorem decide_handling_table (category severity : str) :
  (category = py "FACILITY" ->
   fst (decide_handling category severity) = py "ON_SITE_VISIT" /\
   (severity = py "EMERGENCY" ->
    snd (decide_handling category severity)
    = py "담당자가 현장을 방문하여 쓰러진 나무나 위험 요소를 즉시 확인합니다.") /\
   (severity <> py "EMERGENCY" ->
    snd (decide_handling category severity)
    = py "시설 담당자가 현장을 확인하고 필요한 조치를 진행합니다.")) /\
  py "담당자가 현장을 방문하여 쓰러진 나무나 위험 요소를 즉시 확인합니다."
  <> py "시설 담당자가 현장을 확인하고 필요한 조치를 진행합니다." /\
  (category = py "PENSION" ->
   decide_handling category severity
   = (py "INFO_GUIDE",
      py "국민연금이나 복지 안내를 확인한 뒤 필요한 정보를 안내드립니다.")) /\
  (category = py "MENTAL_HEALTH" ->
   (severity = py "EMERGENCY" ->
    decide_handling category severity
    = (py "COUNSELOR_CONNECT",
       py "위기 징후가 감지되어 전문 상담 연결을 도와드립니다.")) /\
   (severity <> py "EMERGENCY" ->
    decide_handling category severity
    = (py "LISTENING_SUPPORT",
       py "상담사를 연결하거나 가까운 지원 기관 연락처를 안내드립니다."))) /\
  (category <> py "FACILITY" -> category <> py "PENSION" ->
   category <> py "MENTAL_HEALTH" ->
   decide_handling category severity
   = (py "INFO_GUIDE",
      py "민원 내용을 담당자에게 전달하고 추가 안내를 제공합니다.")) /\
  snd (decide_handling category severity) <> [].
Proof.
  unfold decide_handling.
  destruct (str_eqb_reflect category (py "FACILITY")) as [Hf|Hf];
  destruct (str_eqb_reflect category (py "PENSION")) as [Hp|Hp];
  destruct (str_eqb_reflect category (py "MENTAL_HEALTH")) as [Hm|Hm];
  destruct (str_eqb_reflect severity (py "EMERGENCY")) as [He|He];
  try (rewrite Hf in Hp; literals_differ Hp);
  try (rewrite Hf in Hm; literals_differ Hm);
  try (rewrite Hp in Hm; literals_differ Hm);
  split_all; try congruence;
  match goal with
  | H : _ = _ |- False => literals_differ H
  | |- _ = _ => reflexivity
  end.
Qed.

(** ** detect_category *)

(** C2. [detect_category] looks for the keywords as substrings of the
    text, the mental-health list first, then the pension list, then the
    facility list; the first list with a keyword in the text gives the
    category and OTHER is the answer when no list has one.  A text with one
    mental-health keyword and three facility keywords is MENTAL_HEALTH. *)
Theorem detect_category_priority (raw_text : str) :
  (matches MENTAL_KEYWORDS raw_text ->
   detect_category raw_text = py "MENTAL_HEALTH") /\
  (~ matches MENTAL_KEYWORDS raw_text ->
   matches PENSION_KEYWORDS raw_text ->
   detect_category raw_text = py "PENSION") /\
  (~ matches MENTAL_KEYWORDS raw_text ->
   ~ matches PENSION_KEYWORDS raw_text ->
   matches FACILITY_KEYWORDS raw_text ->
   detect_category raw_text = py "FACILITY") /\
  (~ matches MENTAL_KEYWORDS raw_text ->
   ~ matches PENSION_KEYWORDS raw_text ->
   ~ matches FACILITY_KEYWORDS raw_text ->
   detect_category raw_text = py "OTHER") /\
  detect_category (py "가로등과 도로와 건물 때문에 불안해요")
  = py "MENTAL_HEALTH".
Proof.
  split_all;
  match goal with
  | |- detect_category (py _) = _ => vm_compute; reflexivity
  | _ =>
      unfold detect_category;
      repeat match goal with
      | H : matches _ _ |- _ => apply any_in_spec in H; rewrite H
      | H : ~ matches _ _ |- _ => apply any_in_false in H; rewrite H
      end;
      reflexivity
  end.
Qed.

(** ** detect_severity *)

Lemma lower_from_app (pre a b : str) :
  exists x,
    lower_from lower_cp pre (a ++ b)
    = x ++ lower_from lower_cp (pre ++ a) b.
Proof.
  revert pre. induction a as [|c a IH]; intros pre.
  - exists []. now rewrite app_nil_r.
  - destruct (IH (pre ++ [c])) as [x Hx].
    exists (lower_cp pre c (a ++ b) ++ x). simpl.
    rewrite Hx, <- !app_assoc. reflexivity.
Qed.

Lemma lower_from_hangul (pre k post : str) :
  forallb is_hangul k = true ->
  lower_from lower_cp pre (k ++ post)
  = k ++ lower_from lower_cp (pre ++ k) post.
Proof.
  revert pre. induction k as [|c k IH]; intros pre Hk.
  - now rewrite app_nil_r.
  - simpl in Hk. apply andb_true_iff in Hk as [Hc Hk]. simpl.
    rewrite (lower_hangul _ _ _ Hc), (IH _ Hk), <- app_assoc. reflexivity.
Qed.

(** A run of Hangul syllables of the text is still there once the text
    is lowered. *)
Lemma lower_keeps_hangul (k s : str) :
  forallb is_hangul k = true ->
  substring k s -> substring k (lower lower_cp s).
Proof.
  intros Hk (pre & post & ->). unfold lower.
  destruct (lower_from_app [] pre (k ++ post)) as [x ->].
  rewrite lower_from_hangul by assumption. now eexists _, _.
Qed.

Lemma emergency_keywords_hangul (k : str) :
  In k EMERGENCY_KEYWORDS -> forallb is_hangul k = true.
Proof.
  assert (H : forallb (forallb is_hangul) EMERGENCY_KEYWORDS = true)
    by (vm_compute; reflexivity).
  rewrite forallb_forall in H. apply H.
Qed.

(** C3. A text in which an emergency keyword occurs has the severity
    EMERGENCY: [detect_severity] answers so whatever the category is, and
    so does [analyze_text] with the category it has detected. *)
Theorem emergency_keyword_severity (raw_text : str) :
  matches EMERGENCY_KEYWORDS raw_text ->
  severity (analyze_text raw_text) = py "EMERGENCY" /\
  forall category, detect_severity raw_text category = py "EMERGENCY".
Proof.
  intros (k & Hin & Hsub).
  assert (H : forall category,
             detect_severity raw_text category = py "EMERGENCY").
  { intros category. unfold detect_severity.
    assert (Hl : any_in EMERGENCY_KEYWORDS (lower lower_cp raw_text) = true).
    { apply any_in_spec. exists k. split; [assumption|].
      apply lower_keeps_hangul; [now apply emergency_keywords_hangul|assumption]. }
    now rewrite Hl. }
  split; [|exact H].
  unfold analyze_text.
  destruct (decide_handling _ _) as [handling_type handling_desc].
  apply H.
Qed.

(** ** The analyze endpoint *)

(** C6. With an empty [raw_text] the analyze endpoint answers with
    success false, no data and the error code INVALID_TEXT, and it leaves
    the database as it was: no log entry is added.  With any other
    [raw_text] it answers with success true and the five fields of the
    analysis, and it adds one ANALYZE entry to the log. *)
Theorem analyze_conversation_spec
    (db : store) (t_log session_uuid : str) (payload : AnalyzeRequest) :
  (ar_raw_text payload = [] ->
   analyze_conversation db t_log session_uuid payload
   = (Ok {| success := false;
            data := None;
            error := Some {| code := py "INVALID_TEXT";
                             message := py "분석할 텍스트가 없습니다." |} |},
      db)) /\
  (ar_raw_text payload <> [] ->
   let raw_text := ar_raw_text payload in
   let category := detect_category raw_text in
   let severity := detect_severity raw_text category in
   fst (analyze_conversation db t_log session_uuid payload)
   = Ok {| success := true;
           data := Some
             {| resp_summary_text := summarize raw_text;
                resp_category := category;
                resp_severity := severity;
                resp_handling_type := fst (decide_handling category severity);
                resp_handling_desc := snd (decide_handling category severity)
             |};
           error := None |} /\
   conversation_session (snd (analyze_conversation db t_log session_uuid payload))
   = conversation_session db /\
   complaint (snd (analyze_conversation db t_log session_uuid payload))
   = complaint db /\
   exists entry,
     log_entry (snd (analyze_conversation db t_log session_uuid payload))
     = log_entry db ++ [entry] /\
     l_session_uuid entry = session_uuid /\
     l_step entry = py "ANALYZE" /\
     l_payload entry = Some (AnalysisResult_dict (analyze_text raw_text))).
Proof.
  unfold analyze_conversation. destruct (ar_raw_text payload) as [|c s].
  - split; [reflexivity|]. intros H. now elim H.
  - split; [discriminate|]. intros _.
    cbv zeta. cbn [truthy negb fst snd].
    unfold analyze_text, AnalyzeResponse_of, ok.
    destruct (decide_handling _ _) as [h_type h_desc].
    cbn [fst snd summary_text category severity handling_type handling_desc
         insert_log conversation_session complaint log_entry].
    split_all; try reflexivity.
    eexists. split; [reflexivity|]. split_all; reflexivity.
Qed.

(** ** The session table *)

Lemma store_eta (db : store) :
  db = {| conversation_session := conversation_session db;
          complaint := complaint db;
          log_entry := log_entry db |}.
Proof. now destruct db. Qed.

Lemma update_rows_unknown (f : session_row -> session_row) (u : str)
    (rows : list session_row) :
  find (fun r => str_eqb (s_session_uuid r) u) rows = None ->
  map (fun r => if str_eqb (s_session_uuid r) u then f r else r) rows = rows.
Proof.
  induction rows as [|r rows IH]; cbn [find map]; [reflexivity|].
  destruct (str_eqb (s_session_uuid r) u); [discriminate|].
  intros H. now rewrite IH.
Qed.

Lemma update_session_status_unknown (db : store) (now u status : str) :
  find_session db u = None -> update_session_status db now u status = db.
Proof.
  unfold find_session, update_session_status. intros H.
  rewrite update_rows_unknown by assumption. symmetry. apply store_eta.
Qed.

(** The session table after a finalize. *)
Lemma finalize_sessions (db : store) (t1 t2 t3 u : str)
    (payload : FinalizeRequest) :
  conversation_session (snd (finalize_conversation db t1 t2 t3 u payload))
  = map (fun r => if str_eqb (s_session_uuid r) u
                  then with_status t2 (py "COMPLETED") r else r)
        (conversation_session db).
Proof. reflexivity. Qed.

Lemma ok_not_reported (T : Type) (x : T) (db : store) :
  ~ reports_not_found (fst (Ok (ok x), db)).
Proof. intros (e & He & _). discriminate He. Qed.

Lemma invalid_text_is_not_not_found : py "INVALID_TEXT" <> py "NOT_FOUND".
Proof. intros H. literals_differ H. Qed.

(** C7, as amended. A session identifier that was never created is not
    looked up.  [update_session_status] is a bare update that matches no
    row for it: the complete transition returns, raises nothing and leaves
    the database as it was, and finalize leaves the session table as it
    was.  And no endpoint has a path that reports NOT_FOUND: for that
    identifier the answers of start, stt, analyze, confirm, finalize and
    of the log listing never carry that code. *)
Theorem unknown_session_not_reported (db : store) (u : str) :
  find_session db u = None ->
  (forall now status, update_session_status db now u status = db) /\
  (forall now, complete db now u = Ok db /\ ~ fails (complete db now u)) /\
  (forall t1 t2 t3 payload,
     conversation_session
       (snd (finalize_conversation db t1 t2 t3 u payload))
     = conversation_session db /\
     ~ reports_not_found
         (fst (finalize_conversation db t1 t2 t3 u payload))) /\
  (forall t1 t2 p,
     ~ reports_not_found (fst (start_conversation db u t1 t2 p))) /\
  (forall t a, ~ reports_not_found (fst (stt_conversation db t u a))) /\
  (forall t p, ~ reports_not_found (fst (analyze_conversation db t u p))) /\
  (forall t p, ~ reports_not_found (fst (confirm_conversation db t u p))) /\
  ~ reports_not_found (fst (list_logs db (Some u))).
Proof.
  intros Hu.
  split; [|split; [|split; [|split; [|split; [|split; [|split]]]]]].
  - intros now status. now apply update_session_status_unknown.
  - intros now. unfold complete.
    rewrite update_session_status_unknown by assumption.
    split; [reflexivity|]. intros (e & He). discriminate He.
  - intros t1 t2 t3 payload. split.
    + rewrite finalize_sessions. now apply update_rows_unknown.
    + apply ok_not_reported.
  - intros t1 t2 p. unfold start_conversation, create_session.
    rewrite Hu. apply ok_not_reported.
  - intros t [[size text]|]; cbn [stt_conversation].
    + apply ok_not_reported.
    + intros H. exact H.
  - intros t p. unfold analyze_conversation.
    destruct (negb (truthy (ar_raw_text p))).
    + intros (e & He & Hc). injection He as <-.
      now apply invalid_text_is_not_not_found in Hc.
    + apply ok_not_reported.
  - intros t p. apply ok_not_reported.
  - apply ok_not_reported.
Qed.

(** C7 as it is written fails: on a database without any session, the
    complete transition of a session that does not exist returns, with the
    database as it was, and does not fail. *)
Lemma complete_unknown_session_returns :
  find_session init_db (py "no-such-session") = None /\
  complete init_db (py "2024-05-01T09:00:00.000002") (py "no-such-session")
  = Ok init_db /\
  ~ fails (complete init_db (py "2024-05-01T09:00:00.000002")
             (py "no-such-session")).
Proof.
  split; [reflexivity|]. split; [reflexivity|].
  intros (e & He). discriminate He.
Qed.

(** ** The finalize endpoint *)

(** C10. Finalize always inserts a complaint and always runs the update
    that sets the rows of the session to COMPLETED with a new [ended_at],
    whatever [ended_at] was: [is_confirmed] is stored as it is, true when
    the body leaves it out, and the complaint is inserted and the session
    completed when it is false as well.  The database is arbitrary: no
    earlier confirm step is looked for. *)
Theorem finalize_unconditional
    (db : store) (t1 t2 t3 u : str) (body : FinalizeBody) :
  let payload := FinalizeRequest_of_body body in
  let out := finalize_conversation db t1 t2 t3 u payload in
  (exists message,
     fst out
     = Ok {| success := true;
             data := Some {| user_message := message; redirect := py "MAIN" |};
             error := None |}) /\
  complaint (snd out)
  = complaint db ++
    [{| c_id := next_id (complaint db);
        c_session_uuid := u;
        c_raw_text := fb_raw_text body;
        c_summary_text := fb_summary_text body;
        c_category := fb_category body;
        c_severity := fb_severity body;
        c_handling_type := fb_handling_type body;
        c_handling_desc := fr_handling_desc payload;
        c_is_confirmed := Z.b2z (fr_is_confirmed payload);
        c_created_at := t1 |}] /\
  (fb_is_confirmed body = None -> fr_is_confirmed payload = true) /\
  (forall c, fb_is_confirmed body = Some c -> fr_is_confirmed payload = c) /\
  conversation_session (snd out)
  = map (fun r => if str_eqb (s_session_uuid r) u
                  then with_status t2 (py "COMPLETED") r else r)
        (conversation_session db) /\
  (forall r, In r (conversation_session db) -> s_session_uuid r = u ->
     In (with_status t2 (py "COMPLETED") r) (conversation_session (snd out))) /\
  (forall r, In r (conversation_session (snd out)) -> s_session_uuid r = u ->
     s_status r = py "COMPLETED" /\ s_ended_at r = Some t2).
Proof.
  cbv zeta. split_all.
  - eexists. reflexivity.
  - reflexivity.
  - unfold FinalizeRequest_of_body. cbn [fr_is_confirmed].
    match goal with H : fb_is_confirmed _ = _ |- _ => now rewrite H end.
  - unfold FinalizeRequest_of_body. cbn [fr_is_confirmed].
    match goal with H : fb_is_confirmed _ = _ |- _ => now rewrite H end.
  - apply finalize_sessions.
  - rewrite finalize_sessions. apply in_map_iff.
    match goal with r : session_row |- _ => exists r end.
    split; [|assumption].
    match goal with H : s_session_uuid _ = _ |- _ => rewrite H end.
    now rewrite str_eqb_refl.
  - match goal with H : In _ _ |- _ =>
      rewrite finalize_sessions in H; apply in_map_iff in H;
      destruct H as (r0 & Hr & _) end.
    destruct (str_eqb_reflect (s_session_uuid r0) u) as [E|E].
    + subst r. reflexivity.
    + subst r. contradiction.
  - match goal with H : In _ _ |- _ =>
      rewrite finalize_sessions in H; apply in_map_iff in H;
      destruct H as (r0 & Hr & _) end.
    destruct (str_eqb_reflect (s_session_uuid r0) u) as [E|E].
    + subst r. reflexivity.
    + subst r. contradiction.
Qed.

(** ** ended_at and the status of a session *)

(** The session table after a request: a start adds an open row when the
    identifier is new, a finalize rewrites the rows of its session, and no
    other request touches the table. *)
Lemma serve_sessions (db : store) (rq : request) :
  conversation_session (serve db rq)
  = match rq with
    | Start u t_session _ p =>
        match find_session db u with
        | Some _ => conversation_session db
        | None =>
            conversation_session db ++
            [{| s_id := next_id (conversation_session db);
                s_session_uuid := u;
                s_started_at := t_session;
                s_ended_at := None;
                s_debug_mode := Z.b2z (sr_debug_mode p);
                s_status := py "IN_PROGRESS" |}]
        end
    | Finalize _ t_session _ u _ =>
        map (fun r => if str_eqb (s_session_uuid r) u
                      then with_status t_session (py "COMPLETED") r else r)
            (conversation_session db)
    | _ => conversation_session db
    end.
Proof.
  destruct rq as [u t1 t2 p|t u [[size text]|]|t u p|t u p|t1 t2 t3 u b|u];
    try reflexivity.
  - unfold serve, start_conversation, create_session.
    destruct (find_session db u); reflexivity.
  - unfold serve, analyze_conversation.
    destruct (truthy (ar_raw_text p)); reflexivity.
Qed.

Lemma in_progress_not_completed : py "IN_PROGRESS" <> py "COMPLETED".
Proof. intros H. literals_differ H. Qed.

Lemma ended_iff_completed_open (r : session_row) :
  s_ended_at r = None -> s_status r = py "IN_PROGRESS" ->
  ended_iff_completed r.
Proof.
  intros He Hs. unfold ended_iff_completed. rewrite He, Hs. split.
  - intros H. now elim H.
  - intros H. now apply in_progress_not_completed in H.
Qed.

Lemma ended_iff_completed_closed (now : str) (r : session_row) :
  ended_iff_completed (with_status now (py "COMPLETED") r).
Proof.
  unfold ended_iff_completed, with_status. cbn [s_ended_at s_status].
  split; [reflexivity|discriminate].
Qed.

Lemma serve_keeps_invariant (db : store) (rq : request) :
  Forall ended_iff_completed (conversation_session db) ->
  Forall ended_iff_completed (conversation_session (serve db rq)).
Proof.
  intros Hinv. rewrite serve_sessions.
  destruct rq as [u t1 t2 p|t u a|t u p|t u p|t1 t2 t3 u b|u];
    try assumption.
  - destruct (find_session db u); [assumption|].
    apply Forall_app. split; [assumption|].
    constructor; [|constructor].
    now apply ended_iff_completed_open.
  - apply Forall_forall. intros r Hr. apply in_map_iff in Hr.
    destruct Hr as (r0 & <- & Hr0).
    destruct (str_eqb (s_session_uuid r0) u).
    + apply ended_iff_completed_closed.
    + rewrite Forall_forall in Hinv. now apply Hinv.
Qed.

Lemma serve_all_keeps_invariant (rqs : list request) (db : store) :
  Forall ended_iff_completed (conversation_session db) ->
  Forall ended_iff_completed (conversation_session (serve_all db rqs)).
Proof.
  revert db. induction rqs as [|rq rqs IH]; intros db Hinv; [assumption|].
  apply IH. now apply serve_keeps_invariant.
Qed.

Lemma find_session_app (u : str) (rows : list session_row) (r : session_row) :
  find (fun x => str_eqb (s_session_uuid x) u) (rows ++ [r])
  = match find (fun x => str_eqb (s_session_uuid x) u) rows with
    | Some x => Some x
    | None => if str_eqb (s_session_uuid r) u then Some r else None
    end.
Proof.
  induction rows as [|x rows IH]; cbn [app find]; [reflexivity|].
  now destruct (str_eqb (s_session_uuid x) u).
Qed.

(** An update that keeps the identifiers does not change which row is
    found for a session. *)
Lemma find_session_map (f : session_row -> session_row) (u : str)
    (rows : list session_row) :
  (forall r, s_session_uuid (f r) = s_session_uuid r) ->
  find (fun x => str_eqb (s_session_uuid x) u) (map f rows)
  = option_map f (find (fun x => str_eqb (s_session_uuid x) u) rows).
Proof.
  intros Hf. induction rows as [|x rows IH]; cbn [map find]; [reflexivity|].
  rewrite Hf. now destruct (str_eqb (s_session_uuid x) u).
Qed.

Lemma find_session_uuid (u : str) (rows : list session_row) (r : session_row) :
  find (fun x => str_eqb (s_session_uuid x) u) rows = Some r ->
  s_session_uuid r = u.
Proof.
  intros H. apply find_some in H as [_ H]. now apply str_eqb_eq.
Qed.

(** [ended_at] of the session [u] after a finalize of the session [u']. *)
Lemma ended_at_of_finalize (db : store) (t1 t2 t3 u' u : str)
    (b : FinalizeBody) (e : option str) :
  ended_at_of db u = Some e ->
  ended_at_of (serve db (Finalize t1 t2 t3 u' b)) u
  = Some (if str_eqb u' u then Some t2 else e).
Proof.
  unfold ended_at_of, find_session. rewrite serve_sessions.
  rewrite find_session_map
    by (intros r; now destruct (str_eqb (s_session_uuid r) u')).
  destruct (find _ (conversation_session db)) as [r|] eqn:Hr; [|discriminate].
  apply find_session_uuid in Hr. cbn [option_map]. intros [= <-].
  rewrite Hr. destruct (str_eqb_reflect u u') as [->|Hne].
  - now rewrite str_eqb_refl.
  - destruct (str_eqb_reflect u' u) as [->|_]; [now elim Hne|reflexivity].
Qed.

(** C8. After every sequence of requests, [ended_at] of a session row is
    set exactly when its status is COMPLETED.  And [ended_at] is null when
    the session is created, is left as it is by every request that is not
    a finalize of that session, and is set by a finalize of that session:
    null until the session is completed, set from then on. *)
Theorem ended_at_iff_completed :
  (forall rqs,
     Forall ended_iff_completed
       (conversation_session (serve_all init_db rqs))) /\
  (forall db u t_session t_log p,
     find_session db u = None ->
     ended_at_of (serve db (Start u t_session t_log p)) u = Some None) /\
  (forall db rq u e,
     completes rq u = false ->
     ended_at_of db u = Some e ->
     ended_at_of (serve db rq) u = Some e) /\
  (forall db rq u e,
     completes rq u = true ->
     ended_at_of db u = Some e ->
     exists now, ended_at_of (serve db rq) u = Some (Some now)).
Proof.
  split; [|split; [|split]].
  - intros rqs. apply serve_all_keeps_invariant. constructor.
  - intros db u t1 t2 p Hnew.
    unfold ended_at_of, find_session in *. rewrite serve_sessions.
    unfold find_session. rewrite Hnew, find_session_app, Hnew.
    cbn [s_session_uuid]. now rewrite str_eqb_refl.
  - intros db rq u e Hrq He.
    destruct rq as [u' t1 t2 p|t u' a|t u' p|t u' p|t1 t2 t3 u' b|u'];
      try (unfold ended_at_of, find_session in *; rewrite serve_sessions;
           exact He).
    + unfold ended_at_of, find_session in *. rewrite serve_sessions.
      unfold find_session.
      destruct (find (fun x => str_eqb (s_session_uuid x) u')
                  (conversation_session db)); [exact He|].
      rewrite find_session_app.
      destruct (find (fun x => str_eqb (s_session_uuid x) u)
                  (conversation_session db)); [exact He|discriminate].
    + erewrite ended_at_of_finalize by eassumption.
      cbn [completes] in Hrq. now rewrite Hrq.
  - intros db rq u e Hrq He.
    destruct rq as [u' t1 t2 p|t u' a|t u' p|t u' p|t1 t2 t3 u' b|u'];
      try discriminate.
    exists t2. erewrite ended_at_of_finalize by eassumption.
    cbn [completes] in Hrq. now rewrite Hrq.
Qed.

(** ** The log listing *)

Lemma str_leb_total (a b : str) : str_leb a b = false -> str_leb b a = true.
Proof.
  revert b. induction a as [|x a IH]; intros [|y b]; cbn [str_leb];
    try discriminate; try reflexivity.
  destruct (N.ltb_spec x y), (N.ltb_spec y x);
    try discriminate; try reflexivity; try lia.
  apply IH.
Qed.

Lemma str_leb_trans (a b c : str) :
  str_leb a b = true -> str_leb b c = true -> str_leb a c = true.
Proof.
  revert b c. induction a as [|x a IH]; intros [|y b] [|z c]; cbn [str_leb];
    try discriminate; try reflexivity.
  destruct (N.ltb_spec x y), (N.ltb_spec y x), (N.ltb_spec y z),
    (N.ltb_spec z y), (N.ltb_spec x z), (N.ltb_spec z x);
    try discriminate; try reflexivity; try lia.
  apply IH.
Qed.

Lemma insert_by_created_at_perm (r : log_row) (rows : list log_row) :
  Permutation (insert_by_created_at r rows) (r :: rows).
Proof.
  induction rows as [|r' rows IH]; cbn [insert_by_created_at]; [reflexivity|].
  destruct (str_leb (l_created_at r) (l_created_at r')); [reflexivity|].
  rewrite IH. apply perm_swap.
Qed.

Lemma order_by_created_at_perm (rows : list log_row) :
  Permutation (order_by_created_at rows) rows.
Proof.
  induction rows as [|r rows IH]; [reflexivity|].
  cbn [order_by_created_at fold_right].
  rewrite insert_by_created_at_perm. now constructor.
Qed.

Lemma insert_by_created_at_hd (r r' : log_row) (rows : list log_row) :
  created_le r' r -> HdRel created_le r' rows ->
  HdRel created_le r' (insert_by_created_at r rows).
Proof.
  intros Hr Hhd. destruct rows as [|x rows]; cbn [insert_by_created_at].
  - now constructor.
  - destruct (str_leb (l_created_at r) (l_created_at x)).
    + now constructor.
    + constructor. now inversion Hhd.
Qed.

Lemma insert_by_created_at_sorted (r : log_row) (rows : list log_row) :
  Sorted created_le rows -> Sorted created_le (insert_by_created_at r rows).
Proof.
  induction 1 as [|r' rows Hs IH Hhd]; cbn [insert_by_created_at].
  - repeat constructor.
  - destruct (str_leb (l_created_at r) (l_created_at r')) eqn:E.
    + constructor; [now constructor|now constructor].
    + constructor; [exact IH|].
      apply insert_by_created_at_hd; [|exact Hhd].
      now apply str_leb_total.
Qed.

Lemma order_by_created_at_sorted (rows : list log_row) :
  StronglySorted created_le (order_by_created_at rows).
Proof.
  apply Sorted_StronglySorted.
  - intros a b c. apply str_leb_trans.
  - induction rows as [|r rows IH]; [constructor|].
    now apply insert_by_created_at_sorted.
Qed.

Lemma select_columns_sorted (rows : list log_row) :
  StronglySorted created_le rows ->
  StronglySorted entry_le (map select_columns rows).
Proof.
  induction 1 as [|r rows Hs IH Hall]; cbn [map]; constructor.
  - exact IH.
  - apply Forall_map. exact Hall.
Qed.

(** Rows whose [created_at] never decreases in insertion order come back
    in insertion order; among rows with the same [created_at] this is the
    choice of the insertion above. *)
Lemma order_by_created_at_sorted_id (rows : list log_row) :
  Sorted created_le rows -> order_by_created_at rows = rows.
Proof.
  induction 1 as [|r rows Hs IH Hhd]; [reflexivity|].
  cbn [order_by_created_at fold_right]. fold (order_by_created_at rows).
  rewrite IH. destruct Hhd as [|r' rows' Hle]; [reflexivity|].
  cbn [insert_by_created_at]. now rewrite Hle.
Qed.

(** C9, as amended. [fetch_logs] returns its entries by non-decreasing
    [created_at].  With a session identifier that is not the empty string
    the entries are those of the rows of that session, each once; without
    an identifier, or with the empty string as the identifier, they are
    those of all the rows of the table, each once. *)
Theorem fetch_logs_ordered (db : store) (session_uuid : option str) :
  StronglySorted entry_le (fetch_logs db session_uuid) /\
  exists rows,
    fetch_logs db session_uuid = map select_columns rows /\
    StronglySorted created_le rows /\
    (forall u, session_uuid = Some u -> u <> [] ->
       Permutation rows
         (filter (fun r => str_eqb (l_session_uuid r) u) (log_entry db))) /\
    (session_uuid = None \/ session_uuid = Some [] ->
       Permutation rows (log_entry db)).
Proof.
  unfold fetch_logs. split.
  - apply select_columns_sorted, order_by_created_at_sorted.
  - eexists. split; [reflexivity|]. split.
    + apply order_by_created_at_sorted.
    + split.
      * intros u -> Hu. destruct u as [|c u]; [now elim Hu|].
        apply order_by_created_at_perm.
      * intros [-> | ->]; apply order_by_created_at_perm.
Qed.

(** C9 as it is written fails for the empty string: it is an identifier
    that is supplied, no row belongs to it, and the listing has the entries
    of the two sessions of the table. *)
Lemma fetch_logs_empty_uuid_lists_all :
  filter (fun r => str_eqb (l_session_uuid r) (py ""))
    (log_entry two_sessions) = [] /\
  length (fetch_logs two_sessions (Some (py ""))) = 2 /\
  fetch_logs two_sessions (Some (py "")) = fetch_logs two_sessions None.
Proof. vm_compute. split_all; reflexivity. Qed.

End Backend.

(** * The theorems at concrete inputs *)

Lemma ascii_lower_cp_hangul (pre : str) (c : N) (post : str) :
  is_hangul c = true -> ascii_lower_cp pre c post = [c].
Proof.
  unfold is_hangul, ascii_lower_cp. intros H.
  apply andb_true_iff in H as [H _]. apply N.leb_le in H.
  destruct (N.leb_spec c 0x5A) as [Hc|Hc]; [lia|].
  now rewrite andb_false_r.
Qed.

Lemma not_matches (keywords : list str) (s : str) :
  any_in keywords s = false -> ~ matches keywords s.
Proof.
  intros H Hm. apply any_in_spec in Hm. congruence.
Qed.

(** The scenarios of the service, with the ASCII case table. *)

Example analyze_fallen_lamp :
  analyze_text ascii_lower_cp fallen_lamp
  = {| summary_text := fallen_lamp;
       category := py "FACILITY";
       severity := py "EMERGENCY";
       handling_type := py "ON_SITE_VISIT";
       handling_desc :=
         py "담당자가 현장을 방문하여 쓰러진 나무나 위험 요소를 즉시 확인합니다." |}.
Proof. vm_compute. reflexivity. Qed.

Example analyze_low_mood :
  analyze_text ascii_lower_cp (py "요즘 너무 힘들고 우울해요")
  = {| summary_text := py "요즘 너무 힘들고 우울해요";
       category := py "MENTAL_HEALTH";
       severity := py "NORMAL";
       handling_type := py "LISTENING_SUPPORT";
       handling_desc :=
         py "상담사를 연결하거나 가까운 지원 기관 연락처를 안내드립니다." |}.
Proof. vm_compute. reflexivity. Qed.

(** The cut falls inside a word. *)
Example summarize_long_report :
  length long_report = 139 /\
  summarize long_report
  = py "우리 동네 공원 입구에 있는 가로등이 며칠 전부터 쓰러져 있어서 밤에 지나다니기가 너무 위험합니다. 아이들도 많이 다니는 길인데 전선까지 밖으로 나와 있어서 사고가 날까 봐 걱정이 됩니다. 빨리 확인해 주세요. 담당…".
Proof. vm_compute. split; reflexivity. Qed.

(** The empty text, which the analyze endpoint refuses, is OTHER and LOW. *)
Example analyze_empty :
  category (analyze_text ascii_lower_cp (py "")) = py "OTHER" /\
  severity (analyze_text ascii_lower_cp (py "")) = py "LOW".
Proof. vm_compute. split; reflexivity. Qed.

Lemma summarize_spec_witness :
  (length (strip (py "  가로등이 쓰러져 있어서 위험해요  ")) <= 50 /\
   summarize (py "  가로등이 쓰러져 있어서 위험해요  ")
   = strip (py "  가로등이 쓰러져 있어서 위험해요  ")) /\
  (50 < length (strip long_report) /\
   summarize long_report
   = rstrip (firstn 120 (strip long_report)) ++ ELLIPSIS).
Proof.
  split; split.
  - vm_compute. lia.
  - apply (proj1 (summarize_spec (py "  가로등이 쓰러져 있어서 위험해요  "))).
    vm_compute. lia.
  - vm_compute. lia.
  - apply (proj2 (summarize_spec long_report)). vm_compute. lia.
Defined.

Lemma summarize_long_ellipsis_witness :
  50 < length (strip long_report) /\
  endswith (summarize long_report) ELLIPSIS = true.
Proof.
  split.
  - vm_compute. lia.
  - apply (summarize_long_ellipsis long_report). vm_compute. lia.
Defined.

Lemma decide_handling_table_witness :
  fst (decide_handling (py "FACILITY") (py "EMERGENCY")) = py "ON_SITE_VISIT".
Proof.
  apply (proj1 (decide_handling_table (py "FACILITY") (py "EMERGENCY"))).
  reflexivity.
Defined.

Lemma detect_category_priority_witness :
  ~ matches MENTAL_KEYWORDS (py "국민연금 수급 자격이 궁금합니다") /\
  matches PENSION_KEYWORDS (py "국민연금 수급 자격이 궁금합니다") /\
  detect_category ascii_lower_cp (py "국민연금 수급 자격이 궁금합니다")
  = py "PENSION".
Proof.
  assert (Hm : ~ matches MENTAL_KEYWORDS (py "국민연금 수급 자격이 궁금합니다"))
    by (apply not_matches; vm_compute; reflexivity).
  assert (Hp : matches PENSION_KEYWORDS (py "국민연금 수급 자격이 궁금합니다"))
    by (apply any_in_spec; vm_compute; reflexivity).
  split; [exact Hm|]. split; [exact Hp|].
  exact (proj1 (proj2 (detect_category_priority ascii_lower_cp
                         (py "국민연금 수급 자격이 궁금합니다"))) Hm Hp).
Defined.

Lemma emergency_keyword_severity_witness :
  matches EMERGENCY_KEYWORDS fallen_lamp /\
  severity (analyze_text ascii_lower_cp fallen_lamp) = py "EMERGENCY".
Proof.
  assert (Hm : matches EMERGENCY_KEYWORDS fallen_lamp)
    by (apply any_in_spec; vm_compute; reflexivity).
  split; [exact Hm|].
  exact (proj1 (@emergency_keyword_severity ascii_lower_cp
                  ascii_lower_cp_hangul fallen_lamp Hm)).
Defined.

Lemma analyze_conversation_spec_witness :
  analyze_conversation ascii_lower_cp two_sessions
    (py "2024-05-01T09:00:02.000001") (py "0b4c9f1e") {| ar_raw_text := py "" |}
  = (Ok {| success := false;
           data := None;
           error := Some {| code := py "INVALID_TEXT";
                            message := py "분석할 텍스트가 없습니다." |} |},
     two_sessions) /\
  conversation_session
    (snd (analyze_conversation ascii_lower_cp two_sessions
            (py "2024-05-01T09:00:02.000001") (py "0b4c9f1e")
            {| ar_raw_text := fallen_lamp |}))
  = conversation_session two_sessions.
Proof.
  split.
  - apply (proj1 (analyze_conversation_spec ascii_lower_cp two_sessions
                    (py "2024-05-01T09:00:02.000001") (py "0b4c9f1e")
                    {| ar_raw_text := py "" |})).
    reflexivity.
  - apply (proj2 (analyze_conversation_spec ascii_lower_cp two_sessions
                    (py "2024-05-01T09:00:02.000001") (py "0b4c9f1e")
                    {| ar_raw_text := fallen_lamp |})).
    vm_compute. discriminate.
Defined.

Lemma unknown_session_not_reported_witness :
  find_session two_sessions (py "no-such-session") = None /\
  update_session_status two_sessions (py "2024-05-01T09:00:03.000002")
    (py "no-such-session") (py "COMPLETED")
  = two_sessions.
Proof.
  assert (H : find_session two_sessions (py "no-such-session") = None)
    by (vm_compute; reflexivity).
  split; [exact H|].
  apply (proj1 (@unknown_session_not_reported ascii_lower_cp two_sessions
                  (py "no-such-session") H)).
Defined.

Lemma finalize_unconditional_witness :
  fr_is_confirmed (FinalizeRequest_of_body bare_body) = true /\
  fr_is_confirmed (FinalizeRequest_of_body declined_body) = false.
Proof.
  split.
  - destruct (finalize_unconditional two_sessions
                (py "2024-05-01T09:00:03.000001")
                (py "2024-05-01T09:00:03.000002")
                (py "2024-05-01T09:00:03.000003") (py "0b4c9f1e") bare_body)
      as (_ & _ & Hdefault & _).
    apply Hdefault. reflexivity.
  - destruct (finalize_unconditional two_sessions
                (py "2024-05-01T09:00:03.000001")
                (py "2024-05-01T09:00:03.000002")
                (py "2024-05-01T09:00:03.000003") (py "0b4c9f1e")
                declined_body)
      as (_ & _ & _ & Hgiven & _).
    apply Hgiven. reflexivity.
Defined.

Lemma ended_at_iff_completed_witness :
  ended_at_of two_sessions (py "0b4c9f1e") = Some None /\
  ended_at_of
    (serve ascii_lower_cp two_sessions
       (Confirm (py "2024-05-01T09:00:02.000001") (py "0b4c9f1e")
          {| cr_is_confirmed := true |}))
    (py "0b4c9f1e") = Some None /\
  exists now,
    ended_at_of
      (serve ascii_lower_cp two_sessions
         (Finalize (py "2024-05-01T09:00:03.000001")
            (py "2024-05-01T09:00:03.000002")
            (py "2024-05-01T09:00:03.000003") (py "0b4c9f1e") bare_body))
      (py "0b4c9f1e") = Some (Some now).
Proof.
  assert (H : ended_at_of two_sessions (py "0b4c9f1e") = Some None)
    by (vm_compute; reflexivity).
  destruct (ended_at_iff_completed ascii_lower_cp) as (_ & _ & Hkeep & Hset).
  split; [exact H|]. split.
  - apply Hkeep; [reflexivity|exact H].
  - apply (Hset two_sessions _ (py "0b4c9f1e") None); [|exact H].
    vm_compute. reflexivity.
Defined.

Lemma fetch_logs_ordered_witness :
  exists rows,
    fetch_logs two_sessions (Some (py "0b4c9f1e")) = map select_columns rows /\
    Permutation rows
      (filter (fun r => str_eqb (l_session_uuid r) (py "0b4c9f1e"))
         (log_entry two_sessions)).
Proof.
  destruct (fetch_logs_ordered two_sessions (Some (py "0b4c9f1e")))
    as (_ & rows & Hrows & _ & Hsession & _).
  exists rows. split; [exact Hrows|].
  apply (Hsession (py "0b4c9f1e") eq_refl). vm_compute. discriminate.
Defined.

(** * Further properties *)

Ltac take_apart :=
  repeat match goal with
  | |- _ /\ _ => split
  | |- _ <-> _ => split
  | |- ~ _ => intro
  | |- _ -> _ => intro
  end.

Ltac differ H := vm_compute in H; discriminate H.

(** ** strip *)

Lemma drop_while_head (p : N -> bool) (s : str) :
  drop_while p s = [] \/
  exists c t, drop_while p s = c :: t /\ p c = false.
Proof.
  induction s as [|c s IH]; cbn [drop_while]; [now left|].
  destruct (p c) eqn:E; [exact IH|]. right. now exists c, s.
Qed.

Lemma drop_while_idem (p : N -> bool) (s : str) :
  drop_while p (drop_while p s) = drop_while p s.
Proof.
  destruct (drop_while_head p s) as [->|(c & t & -> & E)]; [reflexivity|].
  cbn [drop_while]. now rewrite E.
Qed.

Lemma rstrip_idem (s : str) : rstrip (rstrip s) = rstrip s.
Proof.
  unfold rstrip. now rewrite rev_involutive, drop_while_idem.
Qed.

Lemma rstrip_snoc (s : str) (c : N) :
  isspace c = false -> rstrip (s ++ [c]) = s ++ [c].
Proof.
  intros E. unfold rstrip. rewrite rev_app_distr. cbn [rev app drop_while].
  rewrite E. change (rev (c :: rev s) = s ++ [c]).
  cbn [rev]. now rewrite rev_involutive.
Qed.

(** [rstrip] keeps a first character that is no white space. *)
Lemma rstrip_head (c : N) (t : str) :
  isspace c = false -> exists t', rstrip (c :: t) = c :: t'.
Proof.
  intros E. destruct (rstrip_prefix (c :: t)) as (spaces & Hs & Hall).
  destruct (rstrip (c :: t)) as [|c' t'] eqn:Hr.
  - cbn [app] in Hs. subst spaces. cbn [forallb] in Hall.
    rewrite E in Hall. discriminate.
  - cbn [app] in Hs. injection Hs as <- _. now exists t'.
Qed.

(** A stripped text is empty or starts with a character that is no white
    space. *)
Lemma strip_head (s : str) :
  strip s = [] \/ exists c t, strip s = c :: t /\ isspace c = false.
Proof.
  unfold strip, lstrip.
  destruct (drop_while_head isspace s) as [->|(c & t & -> & E)].
  - now left.
  - right. destruct (rstrip_head c t E) as [t' ->]. now exists c, t'.
Qed.

Lemma lstrip_head (c : N) (t : str) :
  isspace c = false -> lstrip (c :: t) = c :: t.
Proof. intros E. unfold lstrip. cbn [drop_while]. now rewrite E. Qed.

Lemma strip_idem (s : str) : strip (strip s) = strip s.
Proof.
  destruct (strip_head s) as [->|(c & t & H & E)]; [reflexivity|].
  rewrite H. unfold strip at 1. rewrite (lstrip_head c t E), <- H.
  unfold strip. apply rstrip_idem.
Qed.

Lemma ellipsis_no_space : isspace 0x2026%N = false.
Proof. reflexivity. Qed.

Lemma ellipsis_char : ELLIPSIS = [0x2026%N].
Proof. reflexivity. Qed.

(** ** More on summarize *)

(** X1. A summary has at most 121 characters, the marker included. *)
Theorem summarize_length (raw_text : str) :
  length (summarize raw_text) <= 121.
Proof.
  destruct (Nat.le_gt_cases (length (strip raw_text)) 50) as [H|H].
  - rewrite (summarize_short _ H). lia.
  - rewrite (summarize_long _ H), length_app, ellipsis_char. cbn [length].
    pose proof (rstrip_length (firstn 120 (strip raw_text))) as Hr.
    pose proof (firstn_le_length 120 (strip raw_text)) as Hf. lia.
Qed.

(** X2. A stripped text of 51 to 120 characters is returned whole with
    the marker after it: the marker is added although nothing is cut. *)
Theorem summarize_marks_uncut_text (raw_text : str) :
  50 < length (strip raw_text) <= 120 ->
  summarize raw_text = strip raw_text ++ ELLIPSIS.
Proof.
  intros [Hlo Hhi]. rewrite (summarize_long _ Hlo).
  rewrite firstn_all2 by assumption.
  unfold strip. now rewrite rstrip_idem.
Qed.

(** X3. A summary has no white space at its start or at its end:
    stripping it again changes nothing. *)
Theorem summarize_stripped (raw_text : str) :
  strip (summarize raw_text) = summarize raw_text.
Proof.
  destruct (Nat.le_gt_cases (length (strip raw_text)) 50) as [H|H].
  - rewrite (summarize_short _ H). apply strip_idem.
  - rewrite (summarize_long _ H).
    destruct (strip_head raw_text) as [E|(c & t & E & Hc)].
    + rewrite E in H. cbn [length] in H. lia.
    + rewrite E. change (firstn 120 (c :: t)) with (c :: firstn 119 t).
      destruct (rstrip_head c (firstn 119 t) Hc) as [t' ->].
      unfold strip. cbn [app]. rewrite (lstrip_head c _ Hc).
      change (c :: t' ++ ELLIPSIS) with ((c :: t') ++ ELLIPSIS).
      rewrite ellipsis_char. now apply rstrip_snoc.
Qed.

(** ** More on the classifier *)

Lemma in_literals (x : str) (l : list str) :
  existsb (str_eqb x) l = true -> In x l.
Proof.
  intros H. apply existsb_exists in H as (y & Hy & E).
  apply str_eqb_eq in E. now subst y.
Qed.

Ltac by_table := apply in_literals; vm_compute; reflexivity.

Lemma lower_nil (lower_cp : str -> N -> str -> str) : lower lower_cp [] = [].
Proof. reflexivity. Qed.

Lemma normal_not_low : py "NORMAL" <> py "LOW".
Proof. intros H. differ H. Qed.

Lemma emergency_not_low : py "EMERGENCY" <> py "LOW".
Proof. intros H. differ H. Qed.

Lemma detect_severity_category_free
    (lower_cp : str -> N -> str -> str) (raw_text category category' : str) :
  detect_severity lower_cp raw_text category
  = detect_severity lower_cp raw_text category'.
Proof.
  unfold detect_severity. destruct raw_text as [|c s].
  - rewrite lower_nil.
    change (contains [] (py "힘들")) with false.
    now rewrite !andb_false_r.
  - cbn [length Nat.ltb Nat.leb].
    destruct (any_in EMERGENCY_KEYWORDS (lower lower_cp (c :: s)));
      [reflexivity|].
    now destruct (str_eqb category _ && _), (str_eqb category' _ && _).
Qed.

Lemma detect_severity_low
    (lower_cp : str -> N -> str -> str) (raw_text category : str) :
  detect_severity lower_cp raw_text category = py "LOW" <-> raw_text = [].
Proof.
  unfold detect_severity. destruct raw_text as [|c s].
  - rewrite lower_nil.
    change (any_in EMERGENCY_KEYWORDS []) with false.
    change (contains [] (py "힘들")) with false.
    rewrite andb_false_r. split; reflexivity.
  - cbn [length Nat.ltb Nat.leb]. split; [|discriminate].
    destruct (any_in EMERGENCY_KEYWORDS (lower lower_cp (c :: s))).
    + intros H. now apply emergency_not_low in H.
    + destruct (str_eqb category _ && _);
        intros H; now apply normal_not_low in H.
Qed.

(** X4. The severity depends on the text alone: the clause on the
    category MENTAL_HEALTH changes no answer.  And LOW is the severity of
    the empty text and of no other text. *)
Theorem detect_severity_ignores_category
    (lower_cp : str -> N -> str -> str) (raw_text : str) :
  (forall category category',
     detect_severity lower_cp raw_text category
     = detect_severity lower_cp raw_text category') /\
  (forall category,
     detect_severity lower_cp raw_text category = py "LOW"
     <-> raw_text = []).
Proof.
  split.
  - intros category category'. apply detect_severity_category_free.
  - intros category. apply detect_severity_low.
Qed.

Lemma detect_category_values (lower_cp : str -> N -> str -> str) (s : str) :
  In (detect_category lower_cp s)
     [py "MENTAL_HEALTH"; py "PENSION"; py "FACILITY"; py "OTHER"].
Proof.
  unfold detect_category.
  destruct (any_in MENTAL_KEYWORDS s); [by_table|].
  destruct (any_in PENSION_KEYWORDS s); [by_table|].
  destruct (any_in FACILITY_KEYWORDS s); by_table.
Qed.

Lemma detect_severity_values (lower_cp : str -> N -> str -> str)
    (s category : str) :
  In (detect_severity lower_cp s category)
     [py "EMERGENCY"; py "NORMAL"; py "LOW"].
Proof.
  unfold detect_severity.
  destruct (any_in EMERGENCY_KEYWORDS _); [by_table|].
  destruct (str_eqb category _ && _); [by_table|].
  destruct (0 <? length s); by_table.
Qed.

Lemma decide_handling_values (category severity : str) :
  In (fst (decide_handling category severity))
     [py "ON_SITE_VISIT"; py "INFO_GUIDE"; py "COUNSELOR_CONNECT";
      py "LISTENING_SUPPORT"] /\
  snd (decide_handling category severity) <> [].
Proof.
  unfold decide_handling.
  destruct (str_eqb category (py "FACILITY"));
  [|destruct (str_eqb category (py "PENSION"));
    [|destruct (str_eqb category (py "MENTAL_HEALTH"))]];
  try destruct (str_eqb severity (py "EMERGENCY"));
  cbn [fst snd]; (split; [by_table|intros H; differ H]).
Qed.

(** X5. Whatever the text, [analyze_text] answers inside the closed sets:
    one of four categories, one of three severities, one of four handling
    types, a description that is not empty, and the handling is the one
    that the table gives for the category and the severity it reports. *)
Theorem analyze_text_values (lower_cp : str -> N -> str -> str) (s : str) :
  let r := analyze_text lower_cp s in
  In (category r)
     [py "MENTAL_HEALTH"; py "PENSION"; py "FACILITY"; py "OTHER"] /\
  In (severity r) [py "EMERGENCY"; py "NORMAL"; py "LOW"] /\
  In (handling_type r)
     [py "ON_SITE_VISIT"; py "INFO_GUIDE"; py "COUNSELOR_CONNECT";
      py "LISTENING_SUPPORT"] /\
  handling_desc r <> [] /\
  (handling_type r, handling_desc r)
  = decide_handling (category r) (severity r).
Proof.
  cbv zeta. unfold analyze_text.
  pose proof (decide_handling_values (detect_category lower_cp s)
                (detect_severity lower_cp s (detect_category lower_cp s)))
    as [Ht Hd].
  destruct (decide_handling _ _) as [h_type h_desc] eqn:E.
  cbn [category severity handling_type handling_desc fst snd] in *.
  rewrite E.
  split; [apply detect_category_values|].
  split; [apply detect_severity_values|].
  split; [exact Ht|]. split; [exact Hd|reflexivity].
Qed.

Ltac literal_cases :=
  repeat match goal with
  | H : py _ = py _ |- _ => differ H
  | H : fst _ = py _ |- _ => differ H
  | H : ?x = py _ |- _ => is_var x; subst x
  | H : _ /\ _ |- _ => destruct H
  end.

(** X6. The handling type tells the case of the table: ON_SITE_VISIT is
    given to FACILITY and to nothing else, COUNSELOR_CONNECT to
    MENTAL_HEALTH with EMERGENCY and to nothing else, LISTENING_SUPPORT to
    MENTAL_HEALTH with any other severity, and INFO_GUIDE to every category
    that is neither FACILITY nor MENTAL_HEALTH. *)
Theorem handling_type_inverse (category severity : str) :
  (fst (decide_handling category severity) = py "ON_SITE_VISIT"
   <-> category = py "FACILITY") /\
  (fst (decide_handling category severity) = py "COUNSELOR_CONNECT"
   <-> category = py "MENTAL_HEALTH" /\ severity = py "EMERGENCY") /\
  (fst (decide_handling category severity) = py "LISTENING_SUPPORT"
   <-> category = py "MENTAL_HEALTH" /\ severity <> py "EMERGENCY") /\
  (fst (decide_handling category severity) = py "INFO_GUIDE"
   <-> category <> py "FACILITY" /\ category <> py "MENTAL_HEALTH").
Proof.
  unfold decide_handling.
  destruct (str_eqb_reflect category (py "FACILITY")) as [Hf|Hf];
  destruct (str_eqb_reflect category (py "PENSION")) as [Hp|Hp];
  destruct (str_eqb_reflect category (py "MENTAL_HEALTH")) as [Hm|Hm];
  destruct (str_eqb_reflect severity (py "EMERGENCY")) as [He|He];
  try (rewrite Hf in Hp; differ Hp);
  try (rewrite Hf in Hm; differ Hm);
  try (rewrite Hp in Hm; differ Hm);
  take_apart; try congruence; literal_cases; try congruence;
  match goal with
  | |- fst (py ?a, _) = py ?a => reflexivity
  end.
Qed.

(** ** format_user_message *)

Lemma substring_here (k post : str) : substring k (k ++ post).
Proof. now exists [], post. Qed.

Lemma substring_skip (k a s : str) : substring k s -> substring k (a ++ s).
Proof.
  intros (pre & post & ->). exists (a ++ pre), post.
  now rewrite <- app_assoc.
Qed.

(** X7. The message for the user is never empty, it quotes the summary,
    the category, the severity and the handling type, and the handling
    description has no part in it. *)
Theorem format_user_message_quotes (r : AnalysisResult) :
  format_user_message r <> [] /\
  substring (summary_text r) (format_user_message r) /\
  substring (category r) (format_user_message r) /\
  substring (severity r) (format_user_message r) /\
  substring (handling_type r) (format_user_message r) /\
  forall desc,
    format_user_message
      {| summary_text := summary_text r;
         category := category r;
         severity := severity r;
         handling_type := handling_type r;
         handling_desc := desc |}
    = format_user_message r.
Proof.
  split; [|split; [|split; [|split; [|split]]]].
  - unfold format_user_message. intros H.
    apply app_eq_nil in H as [H _]. differ H.
  - unfold format_user_message.
    apply substring_skip. apply substring_here.
  - unfold format_user_message.
    do 4 apply substring_skip. apply substring_here.
  - unfold format_user_message.
    do 6 apply substring_skip. apply substring_here.
  - unfold format_user_message.
    do 9 apply substring_skip. apply substring_here.
  - intros desc. unfold format_user_message.
    cbn [summary_text category severity handling_type]. reflexivity.
Qed.

(** ** The envelopes *)

Lemma well_formed_ok (T : Type) (x : T) : well_formed (ok x).
Proof. left. cbn. repeat split. discriminate. Qed.

Lemma well_formed_fail (T : Type) (c m : str) : well_formed (fail T c m).
Proof. right. cbn. repeat split. discriminate. Qed.

(** X8. Every envelope that an endpoint returns carries either its data
    or its error, never both and never neither, and [success] is true
    exactly when it carries the data. *)
Theorem envelopes_well_formed
    (lower_cp : str -> N -> str -> str) (db : store) :
  (forall u t1 t2 p resp,
     fst (start_conversation db u t1 t2 p) = Ok resp -> well_formed resp) /\
  (forall t u a resp,
     fst (stt_conversation db t u a) = Ok resp -> well_formed resp) /\
  (forall t u p resp,
     fst (analyze_conversation lower_cp db t u p) = Ok resp ->
     well_formed resp) /\
  (forall t u p resp,
     fst (confirm_conversation db t u p) = Ok resp -> well_formed resp) /\
  (forall t1 t2 t3 u p resp,
     fst (finalize_conversation db t1 t2 t3 u p) = Ok resp ->
     well_formed resp) /\
  (forall u resp, fst (list_logs db u) = Ok resp -> well_formed resp).
Proof.
  split; [|split; [|split; [|split; [|split]]]].
  - intros u t1 t2 p resp. unfold start_conversation.
    destruct (create_session db t1 u (sr_debug_mode p)); cbn [fst];
      intros [= <-]. apply well_formed_ok.
  - intros t u [[size text]|] resp; cbn [stt_conversation fst];
      intros [= <-]. apply well_formed_ok.
  - intros t u p resp. unfold analyze_conversation.
    destruct (negb (truthy (ar_raw_text p))); cbn [fst]; intros [= <-].
    + apply well_formed_fail.
    + apply well_formed_ok.
  - intros t u p resp. cbn [confirm_conversation fst]. intros [= <-].
    apply well_formed_ok.
  - intros t1 t2 t3 u p resp. unfold finalize_conversation.
    cbn [insert_complaint fst]. intros [= <-]. apply well_formed_ok.
  - intros u resp. cbn [list_logs fst]. intros [= <-]. apply well_formed_ok.
Qed.

(** X9. The analyze endpoint never reports the severity LOW: the only
    text with that severity is the empty one, which it refuses. *)
Theorem analyze_never_low
    (lower_cp : str -> N -> str -> str) (db : store) (t u : str)
    (p : AnalyzeRequest) (resp : ApiResponse AnalyzeResponse)
    (d : AnalyzeResponse) :
  fst (analyze_conversation lower_cp db t u p) = Ok resp ->
  data resp = Some d ->
  resp_severity d <> py "LOW".
Proof.
  unfold analyze_conversation.
  destruct (ar_raw_text p) as [|c s] eqn:E; cbn [truthy negb fst].
  - intros [= <-]. discriminate.
  - intros [= <-]. cbn [ok data]. intros [= <-].
    unfold AnalyzeResponse_of, analyze_text.
    destruct (decide_handling _ _) as [h_type h_desc].
    cbn [resp_severity severity]. intros H.
    apply detect_severity_low in H. discriminate H.
Qed.

(** ** The start endpoint *)

(** X10. A start with an identifier that is not in the session table
    answers IN_PROGRESS for it, and the session is then found with its
    start time, its debug flag, the status IN_PROGRESS and no end time; one
    SESSION entry is logged.  A start with an identifier that is in the
    table raises the integrity error and changes nothing. *)
Theorem start_conversation_outcome
    (db : store) (u t_session t_log : str) (p : StartRequest) :
  (find_session db u = None ->
   let out := start_conversation db u t_session t_log p in
   fst out
   = Ok {| success := true;
           data := Some {| st_session_uuid := u;
                           st_status := py "IN_PROGRESS" |};
           error := None |} /\
   find_session (snd out) u
   = Some {| s_id := next_id (conversation_session db);
             s_session_uuid := u;
             s_started_at := t_session;
             s_ended_at := None;
             s_debug_mode := Z.b2z (sr_debug_mode p);
             s_status := py "IN_PROGRESS" |} /\
   complaint (snd out) = complaint db /\
   log_entry (snd out)
   = log_entry db ++
     [{| l_id := next_id (log_entry db);
         l_session_uuid := u;
         l_step := py "SESSION";
         l_level := py "INFO";
         l_message := py "새로운 세션이 생성되었습니다.";
         l_payload := Some [(py "debug_mode", PyBool (sr_debug_mode p))];
         l_created_at := t_log |}]) /\
  (forall r, find_session db u = Some r ->
   start_conversation db u t_session t_log p = (Raise IntegrityError, db)).
Proof.
  split.
  - intros Hnew. cbv zeta. unfold start_conversation, create_session.
    rewrite Hnew. cbn [fst snd insert_log conversation_session complaint
                       log_entry].
    split; [reflexivity|]. split; [|split; reflexivity].
    unfold find_session in *. cbn [insert_log conversation_session].
    rewrite find_session_app, Hnew. cbn [s_session_uuid].
    now rewrite str_eqb_refl.
  - intros r Hr. unfold start_conversation, create_session.
    now rewrite Hr.
Qed.

(** ** What a request writes *)

Lemma serve_complaints (lower_cp : str -> N -> str -> str)
    (db : store) (rq : request) :
  complaint (serve lower_cp db rq)
  = match rq with
    | Finalize t_complaint _ _ u b =>
        complaint db ++
        [{| c_id := next_id (complaint db);
            c_session_uuid := u;
            c_raw_text := fb_raw_text b;
            c_summary_text := fb_summary_text b;
            c_category := fb_category b;
            c_severity := fb_severity b;
            c_handling_type := fb_handling_type b;
            c_handling_desc := fr_handling_desc (FinalizeRequest_of_body b);
            c_is_confirmed :=
              Z.b2z (fr_is_confirmed (FinalizeRequest_of_body b));
            c_created_at := t_complaint |}]
    | _ => complaint db
    end.
Proof.
  destruct rq as [u t1 t2 p|t u [[size text]|]|t u p|t u p|t1 t2 t3 u b|u];
    try reflexivity.
  - unfold serve, start_conversation, create_session.
    destruct (find_session db u); reflexivity.
  - unfold serve, analyze_conversation.
    destruct (truthy (ar_raw_text p)); reflexivity.
Qed.

Lemma serve_logs (lower_cp : str -> N -> str -> str)
    (db : store) (rq : request) :
  log_entry (serve lower_cp db rq) = log_entry db \/
  exists e,
    log_entry (serve lower_cp db rq) = log_entry db ++ [e] /\
    l_id e = next_id (log_entry db).
Proof.
  destruct rq as [u t1 t2 p|t u [[size text]|]|t u p|t u p|t1 t2 t3 u b|u];
    try (now left); try (right; eexists; split; reflexivity).
  - unfold serve, start_conversation, create_session.
    destruct (find_session db u); [now left|].
    right. eexists. split; reflexivity.
  - unfold serve, analyze_conversation.
    destruct (truthy (ar_raw_text p)); [|now left].
    right. eexists. split; reflexivity.
Qed.

(** X11. Only a start and a finalize write to the session table and to
    the complaint table: every other request leaves both as they are, a
    start leaves the complaints, and a listing of the log leaves the whole
    database. *)
Theorem only_start_and_finalize_write
    (lower_cp : str -> N -> str -> str) (db : store) (rq : request) :
  (writes_tables rq = false ->
   conversation_session (serve lower_cp db rq) = conversation_session db /\
   complaint (serve lower_cp db rq) = complaint db) /\
  (is_finalize rq = false ->
   complaint (serve lower_cp db rq) = complaint db) /\
  (forall u, rq = ListLogs u -> serve lower_cp db rq = db).
Proof.
  split; [|split].
  - intros H. rewrite serve_sessions, serve_complaints.
    destruct rq; try discriminate H; now split.
  - intros H. rewrite serve_complaints.
    destruct rq; try discriminate H; reflexivity.
  - intros u ->. reflexivity.
Qed.

(** ** Tables that only grow *)

Lemma serve_all_cons (lower_cp : str -> N -> str -> str)
    (db : store) (rq : request) (rqs : list request) :
  serve_all lower_cp db (rq :: rqs)
  = serve_all lower_cp (serve lower_cp db rq) rqs.
Proof. reflexivity. Qed.

(** X12. The log is append-only: after any sequence of requests the log
    is the earlier log followed by new entries, at most one for each
    request. *)
Theorem log_append_only
    (lower_cp : str -> N -> str -> str) (rqs : list request) (db : store) :
  exists added,
    log_entry (serve_all lower_cp db rqs) = log_entry db ++ added /\
    length added <= length rqs.
Proof.
  revert db. induction rqs as [|rq rqs IH]; intros db.
  - exists []. split; [now rewrite app_nil_r|reflexivity].
  - destruct (IH (serve lower_cp db rq)) as (added & Hlog & Hlen).
    rewrite serve_all_cons.
    destruct (serve_logs lower_cp db rq) as [E|(e & E & _)].
    + exists added. rewrite Hlog, E. split; [reflexivity|cbn [length]; lia].
    + exists (e :: added). rewrite Hlog, E, <- app_assoc.
      split; [reflexivity|cbn [length]; lia].
Qed.

(** X13. The complaint table is append-only and every finalize adds one
    row to it, also a second finalize of the same session: after any
    sequence of requests it is the earlier table followed by as many rows
    as the sequence has finalize requests. *)
Theorem one_complaint_per_finalize
    (lower_cp : str -> N -> str -> str) (rqs : list request) (db : store) :
  exists added,
    complaint (serve_all lower_cp db rqs) = complaint db ++ added /\
    length added = length (filter is_finalize rqs).
Proof.
  revert db. induction rqs as [|rq rqs IH]; intros db.
  - exists []. split; [now rewrite app_nil_r|reflexivity].
  - destruct (IH (serve lower_cp db rq)) as (added & Hc & Hlen).
    rewrite serve_all_cons.
    rewrite Hc, serve_complaints. cbn [filter].
    destruct rq; cbn [is_finalize]; try (exists added; now split).
    eexists (_ :: added). rewrite <- app_assoc.
    split; [reflexivity|cbn [length]; now rewrite Hlen].
Qed.

(** ** Sessions *)

Lemma with_status_keeps (now status : str) (r : session_row) (u : str) :
  s_session_uuid
    (if str_eqb (s_session_uuid r) u then with_status now status r else r)
  = s_session_uuid r.
Proof. now destruct (str_eqb (s_session_uuid r) u). Qed.

(** The row of a session after one request. *)
Lemma serve_find_session (lower_cp : str -> N -> str -> str)
    (db : store) (rq : request) (u : str) (r : session_row) :
  find_session db u = Some r ->
  exists r',
    find_session (serve lower_cp db rq) u = Some r' /\
    s_id r' = s_id r /\ s_session_uuid r' = s_session_uuid r /\
    s_started_at r' = s_started_at r /\ s_debug_mode r' = s_debug_mode r /\
    (s_status r = py "COMPLETED" -> s_status r' = py "COMPLETED").
Proof.
  unfold find_session. intros Hr. rewrite serve_sessions.
  destruct rq as [u' t1 t2 p|t u' a|t u' p|t u' p|t1 t2 t3 u' b|u'];
    try (exists r; now repeat split).
  - destruct (find_session db u'); [exists r; now repeat split|].
    rewrite find_session_app, Hr. exists r. now repeat split.
  - rewrite find_session_map by (intros x; apply with_status_keeps).
    rewrite Hr. cbn [option_map]. eexists. split; [reflexivity|].
    destruct (str_eqb (s_session_uuid r) u'); now repeat split.
Qed.

(** X14. A session is never deleted, and its row keeps its number, its
    identifier, its start time and its debug flag through every sequence
    of requests; once its status is COMPLETED it stays COMPLETED. *)
Theorem session_rows_persist
    (lower_cp : str -> N -> str -> str) (rqs : list request) (db : store)
    (u : str) (r : session_row) :
  find_session db u = Some r ->
  exists r',
    find_session (serve_all lower_cp db rqs) u = Some r' /\
    s_id r' = s_id r /\ s_session_uuid r' = s_session_uuid r /\
    s_started_at r' = s_started_at r /\ s_debug_mode r' = s_debug_mode r /\
    (s_status r = py "COMPLETED" -> s_status r' = py "COMPLETED").
Proof.
  revert db r. induction rqs as [|rq rqs IH]; intros db r Hr.
  - exists r. now repeat split.
  - destruct (serve_find_session lower_cp db rq u Hr)
      as (r1 & H1 & Hid & Hu & Hs & Hd & Hc).
    rewrite serve_all_cons.
    destruct (IH _ _ H1) as (r' & H' & Hid' & Hu' & Hs' & Hd' & Hc').
    exists r'. split; [exact H'|]. repeat split; try congruence.
    intros H. now apply Hc', Hc.
Qed.

Lemma find_session_none (u : str) (rows : list session_row) :
  find (fun x => str_eqb (s_session_uuid x) u) rows = None ->
  ~ In u (map s_session_uuid rows).
Proof.
  intros Hnone Hin. apply in_map_iff in Hin as (r & <- & Hr).
  apply (find_none _ _ Hnone) in Hr. cbn in Hr.
  now rewrite str_eqb_refl in Hr.
Qed.

Lemma serve_keeps_unique (lower_cp : str -> N -> str -> str)
    (db : store) (rq : request) :
  NoDup (map s_session_uuid (conversation_session db)) ->
  NoDup (map s_session_uuid (conversation_session (serve lower_cp db rq))).
Proof.
  intros Hnd. rewrite serve_sessions.
  destruct rq as [u t1 t2 p|t u a|t u p|t u p|t1 t2 t3 u b|u];
    try assumption.
  - destruct (find_session db u) eqn:E; [assumption|].
    rewrite map_app. cbn [map s_session_uuid].
    apply NoDup_app_remove_l with (l := []).
    apply Permutation_NoDup with (l := u :: map s_session_uuid
                                               (conversation_session db)).
    + cbn [app]. apply Permutation_cons_append.
    + constructor; [|assumption]. now apply find_session_none.
  - rewrite map_map.
    erewrite map_ext; [exact Hnd|].
    intros r. apply with_status_keeps.
Qed.

(** X15. No two sessions have the same identifier, after any sequence of
    requests on the empty database. *)
Theorem session_uuids_unique
    (lower_cp : str -> N -> str -> str) (rqs : list request) :
  NoDup (map s_session_uuid
           (conversation_session (serve_all lower_cp init_db rqs))).
Proof.
  assert (H : forall db,
             NoDup (map s_session_uuid (conversation_session db)) ->
             NoDup (map s_session_uuid
                      (conversation_session (serve_all lower_cp db rqs)))).
  { induction rqs as [|rq rqs IH]; intros db Hnd; [assumption|].
    rewrite serve_all_cons. apply IH. now apply serve_keeps_unique. }
  apply H. constructor.
Qed.

(** ** Row numbers *)

Lemma consecutive_snoc (ids : list Z) :
  consecutive ids -> consecutive (ids ++ [next_id ids]).
Proof.
  unfold consecutive, next_id. intros H.
  rewrite length_app. cbn [length]. rewrite Nat.add_1_r, seq_S, map_app.
  rewrite <- H. cbn [map]. do 2 f_equal. lia.
Qed.

Lemma next_id_map (A B : Type) (f : A -> B) (rows : list A) :
  next_id (map f rows) = next_id rows.
Proof. unfold next_id. now rewrite length_map. Qed.

Lemma serve_keeps_numbers (lower_cp : str -> N -> str -> str)
    (db : store) (rq : request) :
  consecutive (map s_id (conversation_session db)) /\
  consecutive (map c_id (complaint db)) /\
  consecutive (map l_id (log_entry db)) ->
  consecutive (map s_id (conversation_session (serve lower_cp db rq))) /\
  consecutive (map c_id (complaint (serve lower_cp db rq))) /\
  consecutive (map l_id (log_entry (serve lower_cp db rq))).
Proof.
  intros (Hs & Hc & Hl). split; [|split].
  - rewrite serve_sessions.
    destruct rq as [u t1 t2 p|t u a|t u p|t u p|t1 t2 t3 u b|u];
      try assumption.
    + destruct (find_session db u); [assumption|].
      rewrite map_app. cbn [map s_id].
      rewrite <- (next_id_map s_id). now apply consecutive_snoc.
    + rewrite map_map. erewrite map_ext; [exact Hs|].
      intros r. now destruct (str_eqb (s_session_uuid r) u).
  - rewrite serve_complaints.
    destruct rq; try assumption.
    rewrite map_app. cbn [map c_id].
    rewrite <- (next_id_map c_id). now apply consecutive_snoc.
  - destruct (serve_logs lower_cp db rq) as [->|(e & -> & He)];
      [assumption|].
    rewrite map_app. cbn [map]. rewrite He.
    rewrite <- (next_id_map l_id). now apply consecutive_snoc.
Qed.

(** After any sequence of requests on the empty database the rows
    of the session table, of the complaint table and of the log are
    numbered 1, 2, 3, ... in the order of their insertion, so no number is
    used twice. *)
Lemma row_numbers_consecutive
    (lower_cp : str -> N -> str -> str) (rqs : list request) :
  let db := serve_all lower_cp init_db rqs in
  consecutive (map s_id (conversation_session db)) /\
  consecutive (map c_id (complaint db)) /\
  consecutive (map l_id (log_entry db)).
Proof.
  cbv zeta.
  assert (H : forall db,
             consecutive (map s_id (conversation_session db)) /\
             consecutive (map c_id (complaint db)) /\
             consecutive (map l_id (log_entry db)) ->
             consecutive (map s_id (conversation_session
                                      (serve_all lower_cp db rqs))) /\
             consecutive (map c_id (complaint (serve_all lower_cp db rqs))) /\
             consecutive (map l_id (log_entry (serve_all lower_cp db rqs)))).
  { induction rqs as [|rq rqs IH]; intros db Hdb; [assumption|].
    rewrite serve_all_cons. apply IH. now apply serve_keeps_numbers. }
  apply H. repeat split.
Qed.

(** X16. The DB_SAVE entry that a finalize logs names the complaint that
    this finalize has inserted: its payload is the number of the new row,
    which is the number of rows that the complaint table then has. *)
Theorem finalize_logs_new_complaint
    (db : store) (t1 t2 t3 u : str) (p : FinalizeRequest) :
  let out := finalize_conversation db t1 t2 t3 u p in
  exists row entry,
    complaint (snd out) = complaint db ++ [row] /\
    log_entry (snd out) = log_entry db ++ [entry] /\
    l_step entry = py "DB_SAVE" /\
    l_session_uuid entry = c_session_uuid row /\
    l_payload entry = Some [(py "complaint_id", PyInt (c_id row))] /\
    c_id row = Z.of_nat (length (complaint (snd out))).
Proof.
  cbv zeta. unfold finalize_conversation.
  cbn [insert_complaint snd update_session_status insert_log complaint
       log_entry].
  eexists _, _. split; [reflexivity|]. split; [reflexivity|].
  cbn [l_step l_session_uuid l_payload c_id c_session_uuid complaint_dict
       cd_session_uuid].
  repeat split. unfold next_id. rewrite length_app. cbn [length]. lia.
Qed.

(** ** Reading the log back *)

(** X17. An entry written with [insert_log] is read back by [fetch_logs]
    with the five columns it was written with, in the listing of all
    sessions and, when its session identifier is not empty, in the listing
    of its session; the listing of all sessions is one entry longer, and
    the listings of the other sessions are what they were. *)
Theorem insert_log_then_fetch
    (db : store) (now u a_step a_level a_message : str)
    (a_payload : option pydict) :
  let db' := insert_log db now u a_step a_level a_message a_payload in
  let entry :=
    {| step := a_step;
       level := a_level;
       le_message := a_message;
       payload := a_payload;
       created_at := now |} in
  In entry (fetch_logs db' None) /\
  (u <> [] -> In entry (fetch_logs db' (Some u))) /\
  length (fetch_logs db' None) = S (length (fetch_logs db None)) /\
  (forall u', u' <> u -> u' <> [] ->
     fetch_logs db' (Some u') = fetch_logs db (Some u')).
Proof.
  cbv zeta. unfold fetch_logs. cbn [insert_log log_entry].
  set (row := {| l_id := next_id (log_entry db);
                 l_session_uuid := u;
                 l_step := a_step;
                 l_level := a_level;
                 l_message := a_message;
                 l_payload := a_payload;
                 l_created_at := now |}).
  split; [|split; [|split]].
  - apply in_map_iff. exists row. split; [reflexivity|].
    apply (Permutation_in _
             (Permutation_sym (order_by_created_at_perm _))).
    cbn [where_session]. apply in_or_app. right. now left.
  - intros Hu. destruct u as [|c u]; [now elim Hu|].
    apply in_map_iff. exists row. split; [reflexivity|].
    apply (Permutation_in _
             (Permutation_sym (order_by_created_at_perm _))).
    cbn [where_session]. apply filter_In. split.
    + apply in_or_app. right. now left.
    + subst row. cbn [l_session_uuid]. apply str_eqb_refl.
  - rewrite !length_map.
    rewrite (Permutation_length (order_by_created_at_perm _)).
    rewrite (Permutation_length (order_by_created_at_perm _)).
    cbn [where_session]. rewrite length_app. cbn [length]. lia.
  - intros u' Hne Hu'. destruct u' as [|c' u']; [now elim Hu'|].
    cbn [where_session]. rewrite filter_app. cbn [filter].
    subst row. cbn [l_session_uuid].
    destruct (str_eqb_reflect u (c' :: u')) as [E|_]; [now elim Hne|].
    now rewrite app_nil_r.
Qed.

(** ** Transcription for the endpoint *)

Import WhisperService.

Lemma placeholder_not_empty (filename digest : str) :
  placeholder filename digest <> [].
Proof.
  unfold placeholder. intros H. apply app_eq_nil in H as [H _]. differ H.
Qed.

Lemma truthy_not_empty (s : str) : truthy s = true -> s <> [].
Proof. now destruct s. Qed.

Lemma transcribe_audio_not_empty (OpenAI : bool)
    (create : str -> str -> list Byte.byte -> transcription)
    (sha256_hexdigest : list Byte.byte -> str)
    (audio_bytes : list Byte.byte) (filename : str) (api_key : option str) :
  transcribe_audio OpenAI create sha256_hexdigest audio_bytes filename api_key
  <> [].
Proof.
  unfold transcribe_audio. cbv zeta.
  destruct (OpenAI && truthy (or_empty api_key));
    [|apply placeholder_not_empty].
  destruct (create _ _ _) as [|text]; [apply placeholder_not_empty|].
  destruct (stripped_text text) as [s|]; [|apply placeholder_not_empty].
  destruct (truthy s) eqn:E; [|apply placeholder_not_empty].
  now apply truthy_not_empty.
Qed.

(** X18. [transcribe_audio] never returns the empty string.  Without the
    optional library, without a key or with an empty key its answer is the
    placeholder made of the file name and of the first 8 characters of the
    digest, and the service is not consulted; in every case the answer is
    that placeholder or the stripped, non-empty text of the service. *)
Theorem transcribe_audio_answer (OpenAI : bool)
    (create : str -> str -> list Byte.byte -> transcription)
    (sha256_hexdigest : list Byte.byte -> str)
    (audio_bytes : list Byte.byte) (filename : str) (api_key : option str) :
  let answer :=
    transcribe_audio OpenAI create sha256_hexdigest audio_bytes filename
      api_key in
  let fallback :=
    placeholder filename (firstn 8 (sha256_hexdigest audio_bytes)) in
  answer <> [] /\
  (OpenAI = false \/ api_key = None \/ api_key = Some [] ->
   answer = fallback) /\
  (answer = fallback \/
   exists key s,
     api_key = Some key /\ key <> [] /\
     create key filename audio_bytes = Transcript (Some (PyStr s)) /\
     answer = strip s).
Proof.
  cbv zeta. split; [apply transcribe_audio_not_empty|]. split.
  - unfold transcribe_audio. cbv zeta.
    intros [->|[->| ->]]; [reflexivity| |];
      cbn [or_empty truthy]; now rewrite andb_false_r.
  - unfold transcribe_audio. cbv zeta.
    destruct (OpenAI && truthy (or_empty api_key)) eqn:Hk; [|now left].
    apply andb_true_iff in Hk as [_ Hk].
    destruct api_key as [[|c key]|]; try discriminate Hk.
    cbn [or_empty].
    destruct (create (c :: key) filename audio_bytes) as [|text] eqn:Hc;
      [now left|].
    destruct text as [[| | |s]|]; cbn [stripped_text]; try (now left).
    destruct (truthy (strip s)); [|now left].
    right. exists (c :: key), s.
    split; [reflexivity|]. split; [discriminate|].
    split; [exact Hc|reflexivity].
Qed.

(** X19. A transcript of [transcribe_audio] is never refused by the
    analyze endpoint: the stt endpoint returns it, and analyze answers it
    with success true. *)
Theorem transcript_is_analyzed
    (lower_cp : str -> N -> str -> str) (OpenAI : bool)
    (create : str -> str -> list Byte.byte -> transcription)
    (sha256_hexdigest : list Byte.byte -> str)
    (audio_bytes : list Byte.byte) (filename : str) (api_key : option str)
    (db : store) (t_stt t_analyze u : str) :
  let raw_text :=
    transcribe_audio OpenAI create sha256_hexdigest audio_bytes filename
      api_key in
  let stt :=
    stt_conversation db t_stt u
      (Some (Z.of_nat (length audio_bytes), raw_text)) in
  fst stt = Ok (ok {| stt_raw_text := raw_text |}) /\
  exists d,
    fst (analyze_conversation lower_cp (snd stt) t_analyze u
           {| ar_raw_text := raw_text |})
    = Ok {| success := true; data := Some d; error := None |}.
Proof.
  cbv zeta. split; [reflexivity|].
  unfold analyze_conversation. cbn [ar_raw_text].
  pose proof (transcribe_audio_not_empty OpenAI create sha256_hexdigest
                audio_bytes filename api_key) as Hne.
  destruct (transcribe_audio _ _ _ _ _ _) as [|c s]; [now elim Hne|].
  cbn [truthy negb fst]. eexists. reflexivity.
Qed.

(** ** Transcription for the speaker tools *)

Import SttWhisper.

Lemma strip_nil : strip [] = [].
Proof. reflexivity. Qed.

Lemma _call_whisper_stripped (resp : response) :
  strip (_call_whisper resp) = _call_whisper resp.
Proof.
  destruct resp as [|s|text as_str]; cbn [_call_whisper].
  - reflexivity.
  - apply strip_idem.
  - cbv zeta. destruct (py_truthy _).
    + destruct text as [[| | |s]|]; try reflexivity; apply strip_idem.
    + apply strip_idem.
Qed.

(** X20. The text that [_call_whisper], [transcribe_file] and
    [transcribe_bytes] return has no white space at its start or end, and
    it is the empty string when the call of the service raises, when the
    file is missing or cannot be opened, and when the buffer is empty, in
    which case the service is not called. *)
Theorem speaker_transcripts
    (create : option str -> list Byte.byte -> str -> response) :
  (forall resp, strip (_call_whisper resp) = _call_whisper resp) /\
  _call_whisper CreateRaises = [] /\
  (forall fs path language,
     strip (transcribe_file create fs path language)
     = transcribe_file create fs path language) /\
  (forall fs path language,
     fs path = Missing \/ fs path = Unreadable ->
     transcribe_file create fs path language = []) /\
  (forall audio_bytes language file_name,
     strip (transcribe_bytes create audio_bytes language file_name)
     = transcribe_bytes create audio_bytes language file_name) /\
  (forall create' language file_name,
     transcribe_bytes create' [] language file_name = []).
Proof.
  split; [apply _call_whisper_stripped|]. split; [reflexivity|].
  split; [|split; [|split]].
  - intros fs path language. unfold transcribe_file.
    destruct (fs path); try reflexivity. apply _call_whisper_stripped.
  - intros fs path language [H|H]; unfold transcribe_file; now rewrite H.
  - intros [|b audio_bytes] language file_name; cbn [transcribe_bytes];
      [reflexivity|]. apply _call_whisper_stripped.
  - reflexivity.
Qed.

(** ** Chunks *)

Import Vad.

Lemma elapsed_ms_cons (A : Type) (ms_len : A -> Z) (n : nat) (c : A)
    (chunks : list A) :
  elapsed_ms ms_len (S n) (c :: chunks)
  = (ms_len c + elapsed_ms ms_len n chunks)%Z.
Proof. reflexivity. Qed.

Lemma number_chunks_nth (A F : Type) (ms_len : A -> Z) (seconds : Z -> F)
    (chunks : list A) (idx cursor_ms : Z) (i : nat) (info : chunk_info A F) :
  nth_error (number_chunks ms_len seconds idx cursor_ms chunks) i = Some info ->
  index info = (idx + Z.of_nat i)%Z /\
  start_sec info = seconds (cursor_ms + elapsed_ms ms_len i chunks)%Z /\
  end_sec info = seconds (cursor_ms + elapsed_ms ms_len (S i) chunks)%Z /\
  nth_error chunks i = Some (audio info).
Proof.
  revert idx cursor_ms i. induction chunks as [|c chunks IH];
    intros idx cursor_ms i H.
  - destruct i; discriminate H.
  - destruct i as [|i].
    + cbn in H. injection H as <-. cbn [index start_sec end_sec audio].
      rewrite elapsed_ms_cons. unfold elapsed_ms. cbn.
      rewrite !Z.add_0_r. now repeat split.
    + cbn [number_chunks nth_error] in H.
      destruct (IH _ _ _ H) as (Hi & Hs & He & Ha).
      rewrite Hi, Hs, He, !elapsed_ms_cons.
      repeat split; try (f_equal; lia); try lia. exact Ha.
Qed.

Lemma number_chunks_length (A F : Type) (ms_len : A -> Z) (seconds : Z -> F)
    (chunks : list A) (idx cursor_ms : Z) :
  length (number_chunks ms_len seconds idx cursor_ms chunks) = length chunks.
Proof.
  revert idx cursor_ms. induction chunks as [|c chunks IH];
    intros idx cursor_ms; cbn; [reflexivity|]. now rewrite IH.
Qed.

(** X21. For a path whose file the library decodes and splits,
    [split_into_chunks] returns one dictionary for each chunk, in order;
    the dictionary number [i] has the index [i], starts where the durations
    of the chunks before it end and ends that chunk's duration later.  So
    the first one starts at 0 and each one starts exactly where the one
    before it ends.  For a path where nothing is, it raises
    [FileNotFoundError]; when [AudioSegment.from_file] raises, as for a
    directory or a file that cannot be decoded, or when [split_on_silence]
    raises, the exception goes through and nothing is returned. *)
Theorem split_into_chunks_tiles (Sound A F : Type) (ms_len : A -> Z)
    (seconds : Z -> F) (fs : str -> path_state Sound)
    (split_on_silence : Sound -> Z -> Z -> Z -> option (list A))
    (path : str) (min_silence_len silence_thresh keep_silence : Z) :
  let answer :=
    split_into_chunks ms_len seconds fs split_on_silence path
      min_silence_len silence_thresh keep_silence in
  (fs path = NoSuchPath -> answer = FileNotFoundError) /\
  (fs path = FromFileRaises -> answer = LibraryError) /\
  (forall sound,
     fs path = Decodes sound ->
     split_on_silence sound min_silence_len silence_thresh keep_silence
     = None ->
     answer = LibraryError) /\
  (forall sound chunks,
     fs path = Decodes sound ->
     split_on_silence sound min_silence_len silence_thresh keep_silence
     = Some chunks ->
     exists infos,
       answer = Returns infos /\
       length infos = length chunks /\
       (forall i info,
          nth_error infos i = Some info ->
          index info = Z.of_nat i /\
          nth_error chunks i = Some (audio info) /\
          start_sec info = seconds (elapsed_ms ms_len i chunks) /\
          end_sec info = seconds (elapsed_ms ms_len (S i) chunks)) /\
       (forall info, nth_error infos 0 = Some info ->
          start_sec info = seconds 0%Z) /\
       (forall i info next,
          nth_error infos i = Some info ->
          nth_error infos (S i) = Some next ->
          end_sec info = start_sec next)).
Proof.
  cbv zeta. unfold split_into_chunks, load_audio.
  split; [|split; [|split]].
  - intros ->. reflexivity.
  - intros ->. reflexivity.
  - intros sound -> ->. reflexivity.
  - intros sound chunks -> ->.
    eexists. split; [reflexivity|].
    split; [apply number_chunks_length|]. split; [|split].
    + intros i info H.
      destruct (number_chunks_nth _ _ _ _ _ _ H) as (Hi & Hs & He & Ha).
      rewrite Hi, Hs, He. now repeat split.
    + intros info H.
      destruct (number_chunks_nth _ _ _ _ _ _ H) as (_ & Hs & _).
      rewrite Hs. reflexivity.
    + intros i info next H Hn.
      destruct (number_chunks_nth _ _ _ _ _ _ H) as (_ & _ & He & _).
      destruct (number_chunks_nth _ _ _ _ _ _ Hn) as (_ & Hs & _).
      now rewrite He, Hs.
Qed.

(** ** Trimming silence *)

Section TrimSilence.

Local Open Scope Z_scope.

(** The first element found in an indexed list: every element before it
    fails the test. *)
Lemma find_map_seq (p : Z -> bool) (g : nat -> Z) (n a : nat) (f : Z) :
  find p (map g (seq a n)) = Some f ->
  exists i, (a <= i < a + n)%nat /\ f = g i /\
            forall j, (a <= j < i)%nat -> p (g j) = false.
Proof.
  revert a. induction n as [|n IH]; intros a H; [discriminate H|].
  cbn [seq map find] in H. destruct (p (g a)) eqn:E.
  - injection H as <-. exists a. split; [lia|]. split; [reflexivity|].
    intros j Hj. lia.
  - destruct (IH _ H) as (i & Hi & Hf & Hbefore).
    exists i. split; [lia|]. split; [exact Hf|].
    intros j Hj. destruct (Nat.eq_dec j a) as [->|Hne]; [exact E|].
    apply Hbefore. lia.
Qed.

Lemma find_map_seq_none (p : Z -> bool) (g : nat -> Z) (n a : nat) :
  find p (map g (seq a n)) = None ->
  forall j, (a <= j < a + n)%nat -> p (g j) = false.
Proof.
  intros H j Hj. apply (find_none _ _ H). apply in_map, in_seq. exact Hj.
Qed.

(** The indices of [range(0, n, 10)] and of [range(n - 10, 0, -10)]. *)
Lemma range_up_index (n : Z) (i : nat) :
  (i < Z.to_nat (range_len 0 n 10))%nat <-> 10 * Z.of_nat i < n.
Proof.
  unfold range_len. change (0 <? 10) with true. cbv iota.
  destruct (Z.ltb_spec 0 n) as [Hn|Hn]; [|lia].
  rewrite Z.sub_0_r.
  pose proof (Z.mul_div_le (n - 1) 10 ltac:(lia)) as Hle.
  pose proof (Z.mul_succ_div_gt (n - 1) 10 ltac:(lia)) as Hgt.
  assert (0 <= (n - 1) / 10) by (apply Z.div_pos; lia). lia.
Qed.

Lemma range_down_index (n : Z) (i : nat) :
  (i < Z.to_nat (range_len (n - 10) 0 (-10)))%nat
  <-> 0 < n - 10 - 10 * Z.of_nat i.
Proof.
  unfold range_len. change (0 <? -10) with false.
  change (-10 <? 0) with true. cbv iota. change (- -10) with 10.
  destruct (Z.ltb_spec 0 (n - 10)) as [Hn|Hn]; [|lia].
  rewrite Z.sub_0_r.
  pose proof (Z.mul_div_le (n - 10 - 1) 10 ltac:(lia)) as Hle.
  pose proof (Z.mul_succ_div_gt (n - 10 - 1) 10 ltac:(lia)) as Hgt.
  assert (0 <= (n - 10 - 1) / 10) by (apply Z.div_pos; lia). lia.
Qed.

(** What the forward loop finds. *)
Lemma first_loud (n : Z) (loud : Z -> bool) :
  match find loud (py_range 0 n 10) with
  | Some f =>
      0 <= f < n /\ f mod 10 = 0 /\ loud f = true /\
      forall ms, 0 <= ms < f -> ms mod 10 = 0 -> loud ms = false
  | None => forall ms, 0 <= ms < n -> ms mod 10 = 0 -> loud ms = false
  end.
Proof.
  unfold py_range.
  destruct (find loud _) as [f|] eqn:E.
  - pose proof (find_some _ _ E) as [_ Hloud].
    apply find_map_seq in E as (i & Hi & -> & Hbefore).
    assert (Hin : 10 * Z.of_nat i < n) by (apply range_up_index; lia).
    split; [lia|]. split; [|split; [exact Hloud|]].
    + rewrite Z.add_0_l. apply Z.mod_mul. lia.
    + intros ms Hms Hmod.
      assert (Hq : ms = 0 + Z.of_nat (Z.to_nat (ms / 10)) * 10).
      { pose proof (Z.div_mod ms 10 ltac:(lia)) as Hd.
        assert (0 <= ms / 10) by (apply Z.div_pos; lia). lia. }
      rewrite Hq. apply Hbefore. lia.
  - intros ms Hms Hmod.
    assert (Hq : ms = 0 + Z.of_nat (Z.to_nat (ms / 10)) * 10).
    { pose proof (Z.div_mod ms 10 ltac:(lia)) as Hd.
      assert (0 <= ms / 10) by (apply Z.div_pos; lia). lia. }
    rewrite Hq. apply (@find_map_seq_none _ _ _ _ E).
    split; [lia|]. apply range_up_index. lia.
Qed.

(** What the backward loop finds, when the length is a multiple of 10. *)
Lemma last_loud (n : Z) (loud : Z -> bool) :
  n mod 10 = 0 ->
  match find loud (py_range (n - 10) 0 (-10)) with
  | Some l =>
      0 < l < n /\ l mod 10 = 0 /\ loud l = true /\
      forall ms, l < ms < n -> ms mod 10 = 0 -> loud ms = false
  | None => forall ms, 0 < ms < n -> ms mod 10 = 0 -> loud ms = false
  end.
Proof.
  intros Hn. unfold py_range.
  assert (Hgrid : forall ms, 0 < ms < n -> ms mod 10 = 0 ->
            ms = n - 10 + Z.of_nat (Z.to_nat ((n - 10 - ms) / 10)) * -10 /\
            0 <= (n - 10 - ms) / 10).
  { intros ms Hms Hmod.
    pose proof (Z.div_mod ms 10 ltac:(lia)) as Hd.
    pose proof (Z.div_mod n 10 ltac:(lia)) as Hdn.
    pose proof (Z.div_mod (n - 10 - ms) 10 ltac:(lia)) as Hdd.
    assert (Hm : (n - 10 - ms) mod 10 = 0).
    { replace (n - 10 - ms) with ((n / 10 - 1 - ms / 10) * 10) by lia.
      apply Z.mod_mul. lia. }
    assert (0 <= (n - 10 - ms) / 10) by (apply Z.div_pos; lia). lia. }
  destruct (find loud _) as [l|] eqn:E.
  - pose proof (find_some _ _ E) as [_ Hloud].
    apply find_map_seq in E as (i & Hi & -> & Hbefore).
    assert (Hin : 0 < n - 10 - 10 * Z.of_nat i)
      by (apply range_down_index; lia).
    split; [lia|]. split; [|split; [exact Hloud|]].
    + pose proof (Z.div_mod n 10 ltac:(lia)) as Hdn.
      replace (n - 10 + Z.of_nat i * -10)
        with ((n / 10 - 1 - Z.of_nat i) * 10) by lia.
      apply Z.mod_mul. lia.
    + intros ms Hms Hmod.
      destruct (Hgrid ms ltac:(lia) Hmod) as [Hq Hpos].
      rewrite Hq. apply Hbefore. lia.
  - intros ms Hms Hmod.
    destruct (Hgrid ms Hms Hmod) as [Hq Hpos].
    rewrite Hq. apply (@find_map_seq_none _ _ _ _ E).
    split; [lia|]. apply range_down_index. lia.
Qed.

(** The backward loop without the assumption on the length. *)
Lemma last_loud_range (n : Z) (loud : Z -> bool) (l : Z) :
  find loud (py_range (n - 10) 0 (-10)) = Some l -> 0 < l < n.
Proof.
  unfold py_range. intros E.
  apply find_map_seq in E as (i & Hi & -> & _).
  assert (Hin : 0 < n - 10 - 10 * Z.of_nat i)
    by (apply range_down_index; lia).
  lia.
Qed.

End TrimSilence.

Section TrimSilenceProperties.

Local Open Scope Z_scope.

Lemma find_all_false (p : Z -> bool) (l : list Z) :
  (forall x, p x = false) -> find p l = None.
Proof.
  intros H. induction l as [|x l IH]; cbn [find]; [reflexivity|].
  now rewrite H.
Qed.

Lemma multiple_of_10 (x : Z) : x mod 10 = 0 -> x = 10 * (x / 10).
Proof. intros H. pose proof (Z.div_mod x 10 ltac:(lia)). lia. Qed.

(** X22. [trim_silence] returns the audio itself when it is shorter than
    twice the padding.  Otherwise it returns a slice: the whole length when
    no window is loud, and in every case, for a padding that is not
    negative, a slice whose two bounds lie between 0 and the length. *)
Theorem trim_silence_bounds (len_audio : Z) (loud : Z -> bool)
    (padding_ms : Z) :
  (len_audio < 2 * padding_ms ->
   trim_silence len_audio loud padding_ms = Whole) /\
  (2 * padding_ms <= len_audio -> (forall ms, loud ms = false) ->
   trim_silence len_audio loud padding_ms = Slice 0 len_audio) /\
  (0 <= padding_ms -> 2 * padding_ms <= len_audio ->
   exists start stop,
     trim_silence len_audio loud padding_ms = Slice start stop /\
     0 <= start <= len_audio /\ 0 <= stop <= len_audio).
Proof.
  unfold trim_silence. split; [|split].
  - intros H. apply Z.ltb_lt in H. now rewrite H.
  - intros H Hsilent. apply Z.ltb_ge in H. rewrite H. cbv zeta.
    now rewrite !find_all_false.
  - intros Hp H. pose proof H as Hlen. apply Z.ltb_ge in H. rewrite H.
    cbv zeta. eexists _, _. split; [reflexivity|].
    pose proof (first_loud len_audio loud) as Hf.
    destruct (find loud (py_range 0 len_audio 10)) as [f|].
    + destruct Hf as (Hf & _).
      destruct (find loud (py_range (len_audio - 10) 0 (-10))) as [l|] eqn:El.
      * apply last_loud_range in El. lia.
      * lia.
    + destruct (find loud (py_range (len_audio - 10) 0 (-10))) as [l|] eqn:El.
      * apply last_loud_range in El. lia.
      * lia.
Qed.

(** X23. When the length is a multiple of 10 ms and the padding is at
    least 10 ms, the slice of [trim_silence] is not reversed and it keeps
    every loud window of the 10 ms grid whole. *)
Theorem trim_silence_keeps_loud (len_audio : Z) (loud : Z -> bool)
    (padding_ms start stop : Z) :
  len_audio mod 10 = 0 -> 10 <= padding_ms -> 2 * padding_ms <= len_audio ->
  trim_silence len_audio loud padding_ms = Slice start stop ->
  start <= stop /\
  forall ms, 0 <= ms < len_audio -> ms mod 10 = 0 -> loud ms = true ->
             start <= ms /\ ms + 10 <= stop.
Proof.
  intros Hn Hp Hlen. unfold trim_silence.
  pose proof Hlen as H. apply Z.ltb_ge in H. rewrite H. cbv zeta. clear H.
  pose proof (first_loud len_audio loud) as Hf.
  pose proof (last_loud len_audio loud Hn) as Hl.
  pose proof (multiple_of_10 _ Hn) as Hn10.
  intros [= <- <-].
  assert (Hkeep :
    forall ms, 0 <= ms < len_audio -> ms mod 10 = 0 -> loud ms = true ->
      match find loud (py_range 0 len_audio 10) with
      | Some ms0 => Z.max (ms0 - padding_ms) 0
      | None => 0
      end <= ms /\
      ms + 10 <=
      match find loud (py_range (len_audio - 10) 0 (-10)) with
      | Some ms0 => Z.min (ms0 + padding_ms) len_audio
      | None => len_audio
      end).
  { intros ms Hms Hmod Hloud. pose proof (multiple_of_10 _ Hmod) as Hms10.
    split.
    - destruct (find loud (py_range 0 len_audio 10)) as [f|].
      + destruct Hf as (_ & _ & _ & Hbefore).
        destruct (Z.lt_ge_cases ms f) as [Hlt|Hge]; [|lia].
        rewrite (Hbefore ms) in Hloud by (try lia; assumption).
        discriminate Hloud.
      + rewrite (Hf ms) in Hloud by (try lia; assumption).
        discriminate Hloud.
    - destruct (find loud (py_range (len_audio - 10) 0 (-10))) as [l|].
      + destruct Hl as (Hl & Hl10 & _ & Hafter).
        pose proof (multiple_of_10 _ Hl10) as Hlq.
        destruct (Z.lt_ge_cases l ms) as [Hlt|Hge]; [|lia].
        rewrite (Hafter ms) in Hloud by (try lia; assumption).
        discriminate Hloud.
      + lia. }
  split; [|exact Hkeep].
  destruct (find loud (py_range 0 len_audio 10)) as [f|] eqn:Ef.
  - destruct Hf as (Hf & Hf10 & Hfl & _).
    destruct (Hkeep f Hf Hf10 Hfl). lia.
  - destruct (find loud (py_range (len_audio - 10) 0 (-10))) as [l|].
    + destruct Hl as (Hl & _). lia.
    + lia.
Qed.

End TrimSilenceProperties.

(** ** A whole conversation *)

(** The log after one request. *)
Lemma serve_log_written (lower_cp : str -> N -> str -> str)
    (db : store) (rq : request) :
  log_entry (serve lower_cp db rq)
  = match rq with
    | Start u _ t_log p =>
        match find_session db u with
        | Some _ => log_entry db
        | None =>
            log_entry db ++
            [{| l_id := next_id (log_entry db);
                l_session_uuid := u;
                l_step := py "SESSION";
                l_level := py "INFO";
                l_message := py "새로운 세션이 생성되었습니다.";
                l_payload :=
                  Some [(py "debug_mode", PyBool (sr_debug_mode p))];
                l_created_at := t_log |}]
        end
    | Stt t_log u (Some (size, raw_text)) =>
        log_entry db ++
        [{| l_id := next_id (log_entry db);
            l_session_uuid := u;
            l_step := py "STT";
            l_level := py "INFO";
            l_message := py "음성 인식이 완료되었습니다.";
            l_payload :=
              Some [(py "raw_text", PyStr raw_text); (py "size", PyInt size)];
            l_created_at := t_log |}]
    | Stt _ _ None => log_entry db
    | Analyze t_log u p =>
        if truthy (ar_raw_text p) then
          log_entry db ++
          [{| l_id := next_id (log_entry db);
              l_session_uuid := u;
              l_step := py "ANALYZE";
              l_level := py "INFO";
              l_message := py "요약 및 분류가 완료되었습니다.";
              l_payload :=
                Some (AnalysisResult_dict
                        (analyze_text lower_cp (ar_raw_text p)));
              l_created_at := t_log |}]
        else log_entry db
    | Confirm t_log u p =>
        log_entry db ++
        [{| l_id := next_id (log_entry db);
            l_session_uuid := u;
            l_step := py "CONFIRM";
            l_level := py "INFO";
            l_message := py "사용자 확인 결과";
            l_payload :=
              Some [(py "is_confirmed", PyBool (cr_is_confirmed p))];
            l_created_at := t_log |}]
    | Finalize _ _ t_log u _ =>
        log_entry db ++
        [{| l_id := next_id (log_entry db);
            l_session_uuid := u;
            l_step := py "DB_SAVE";
            l_level := py "INFO";
            l_message := py "민원이 저장되었습니다.";
            l_payload :=
              Some [(py "complaint_id", PyInt (next_id (complaint db)))];
            l_created_at := t_log |}]
    | ListLogs _ => log_entry db
    end.
Proof.
  destruct rq as [u t1 t2 p|t u [[size text]|]|t u p|t u p|t1 t2 t3 u b|u];
    try reflexivity.
  - unfold serve, start_conversation, create_session.
    destruct (find_session db u); reflexivity.
  - unfold serve, analyze_conversation.
    destruct (truthy (ar_raw_text p)); reflexivity.
Qed.

(** X24. A conversation that starts a new session, transcribes, analyzes
    a text that is not empty, confirms or declines, and finalizes leaves
    five new log entries, all of that session, with the steps SESSION, STT,
    ANALYZE, CONFIRM and DB_SAVE in this order; it leaves one new complaint
    of that session, and the session COMPLETED with the end time of the
    finalize. *)
Theorem conversation_trail
    (lower_cp : str -> N -> str -> str) (db : store) (u : str)
    (t : nat -> str) (debug : bool) (size : Z) (raw_text : str)
    (confirmed : bool) (body : FinalizeBody) :
  find_session db u = None -> raw_text <> [] ->
  let db' :=
    serve_all lower_cp db
      (conversation u t debug size raw_text confirmed body) in
  (exists entries,
     log_entry db' = log_entry db ++ entries /\
     map l_step entries
     = [py "SESSION"; py "STT"; py "ANALYZE"; py "CONFIRM"; py "DB_SAVE"] /\
     map l_session_uuid entries = [u; u; u; u; u] /\
     map l_created_at entries = [t 1; t 2; t 3; t 4; t 7]) /\
  (exists row,
     complaint db' = complaint db ++ [row] /\ c_session_uuid row = u) /\
  exists r,
    find_session db' u = Some r /\
    s_status r = py "COMPLETED" /\ s_ended_at r = Some (t 6) /\
    s_started_at r = t 0.
Proof.
  intros Hnew Htext. destruct raw_text as [|c text]; [now elim Htext|].
  cbv zeta. unfold conversation.
  rewrite !serve_all_cons. unfold serve_all. cbn [fold_left].
  split; [|split].
  - rewrite !serve_log_written. cbv beta iota.
    cbn [ar_raw_text truthy]. rewrite Hnew.
    eexists [_; _; _; _; _]. rewrite <- !app_assoc. cbn [app].
    split; [reflexivity|]. cbn [map l_step l_session_uuid l_created_at].
    repeat split.
  - rewrite !serve_complaints. cbv beta iota.
    eexists. split; [reflexivity|]. reflexivity.
  - unfold find_session in *. rewrite !serve_sessions. cbv beta iota.
    unfold find_session. rewrite Hnew.
    rewrite find_session_map by (intros x; apply with_status_keeps).
    rewrite find_session_app, Hnew. cbn [s_session_uuid].
    rewrite str_eqb_refl. cbn [option_map s_session_uuid].
    rewrite str_eqb_refl. eexists. split; [reflexivity|].
    cbn [with_status s_status s_ended_at s_started_at]. repeat split.
Qed.

(** ** The log in insertion order *)

Lemma filter_strongly_sorted (A : Type) (R : A -> A -> Prop)
    (f : A -> bool) (l : list A) :
  StronglySorted R l -> StronglySorted R (filter f l).
Proof.
  induction 1 as [|x l Hs IH Hall]; cbn [filter]; [constructor|].
  destruct (f x); [|exact IH].
  constructor; [exact IH|].
  rewrite Forall_forall in *. intros y Hy. apply filter_In in Hy as [Hy _].
  now apply Hall.
Qed.

Lemma created_lt_sorted (rows : list log_row) :
  StronglySorted created_lt rows -> Sorted created_le rows.
Proof.
  induction 1 as [|r rows Hs IH Hall]; constructor; [exact IH|].
  destruct rows as [|r' rows]; constructor.
  inversion Hall as [|? ? Hlt _]; subst. now apply str_leb_total.
Qed.

(** X25. When every row of the log was written strictly later than the
    rows before it, [fetch_logs] lists the entries in the order of their
    insertion, those of all sessions or those of the session asked for. *)
Theorem fetch_logs_insertion_order (db : store) (session_uuid : option str) :
  StronglySorted created_lt (log_entry db) ->
  fetch_logs db session_uuid
  = map select_columns (where_session session_uuid (log_entry db)).
Proof.
  intros Hsorted. unfold fetch_logs. f_equal.
  apply order_by_created_at_sorted_id, created_lt_sorted.
  destruct session_uuid as [[|c u]|]; cbn [where_session];
    try assumption.
  now apply filter_strongly_sorted.
Qed.

(** * The further properties at concrete inputs *)

Lemma summarize_marks_uncut_text_witness :
  let raw_text :=
    py "가로등이 쓰러져 있어서 위험해요. 아이들이 다니는 길이라 빨리 고쳐 주셨으면 좋겠습니다. 부탁드립니다." in
  50 < length (strip raw_text) <= 120 /\
  summarize raw_text = strip raw_text ++ ELLIPSIS.
Proof.
  cbv zeta. split.
  - vm_compute. lia.
  - apply summarize_marks_uncut_text. vm_compute. lia.
Defined.

Lemma envelopes_well_formed_witness :
  well_formed
    {| success := false;
       data := @None AnalyzeResponse;
       error := Some {| code := py "INVALID_TEXT";
                        message := py "분석할 텍스트가 없습니다." |} |}.
Proof.
  destruct (envelopes_well_formed ascii_lower_cp two_sessions)
    as (_ & _ & Hanalyze & _).
  apply (Hanalyze (py "2024-05-01T09:00:02.000001") (py "0b4c9f1e")
           {| ar_raw_text := py "" |}).
  reflexivity.
Defined.

Lemma analyze_never_low_witness :
  exists resp d,
    fst (analyze_conversation ascii_lower_cp two_sessions
           (py "2024-05-01T09:00:02.000001") (py "0b4c9f1e")
           {| ar_raw_text := py "안녕하세요" |}) = Ok resp /\
    data resp = Some d /\
    resp_severity d = py "NORMAL" /\
    resp_severity d <> py "LOW".
Proof.
  eexists _, _. split; [reflexivity|]. split; [reflexivity|].
  split; [vm_compute; reflexivity|].
  apply (@analyze_never_low ascii_lower_cp two_sessions
           (py "2024-05-01T09:00:02.000001") (py "0b4c9f1e")
           {| ar_raw_text := py "안녕하세요" |} _ _ eq_refl eq_refl).
Defined.

Lemma start_conversation_outcome_witness :
  find_session two_sessions (py "0b4c9f1e") <> None /\
  start_conversation two_sessions (py "0b4c9f1e")
    (py "2024-05-01T09:00:05.000001") (py "2024-05-01T09:00:05.000002")
    {| sr_debug_mode := false |}
  = (Raise IntegrityError, two_sessions).
Proof.
  destruct (find_session two_sessions (py "0b4c9f1e")) as [r|] eqn:E;
    [|vm_compute in E; discriminate E].
  split; [discriminate|].
  apply (proj2 (start_conversation_outcome two_sessions (py "0b4c9f1e")
                  (py "2024-05-01T09:00:05.000001")
                  (py "2024-05-01T09:00:05.000002")
                  {| sr_debug_mode := false |}) r E).
Defined.

Lemma only_start_and_finalize_write_witness :
  conversation_session
    (serve ascii_lower_cp two_sessions
       (Confirm (py "2024-05-01T09:00:02.000001") (py "0b4c9f1e")
          {| cr_is_confirmed := false |}))
  = conversation_session two_sessions.
Proof.
  apply (proj1 (only_start_and_finalize_write ascii_lower_cp two_sessions
                  (Confirm (py "2024-05-01T09:00:02.000001") (py "0b4c9f1e")
                     {| cr_is_confirmed := false |}))).
  reflexivity.
Defined.

Lemma session_rows_persist_witness :
  exists r r',
    find_session two_sessions (py "7d2a6c33") = Some r /\
    find_session
      (serve_all ascii_lower_cp two_sessions
         [Finalize (py "2024-05-01T09:00:03.000001")
            (py "2024-05-01T09:00:03.000002")
            (py "2024-05-01T09:00:03.000003") (py "7d2a6c33") declined_body;
          Start (py "7d2a6c33") (py "2024-05-01T09:00:04.000001")
            (py "2024-05-01T09:00:04.000002") {| sr_debug_mode := false |}])
      (py "7d2a6c33") = Some r' /\
    s_debug_mode r' = s_debug_mode r.
Proof.
  destruct (find_session two_sessions (py "7d2a6c33")) as [r|] eqn:E;
    [|vm_compute in E; discriminate E].
  destruct (@session_rows_persist ascii_lower_cp
              [Finalize (py "2024-05-01T09:00:03.000001")
                 (py "2024-05-01T09:00:03.000002")
                 (py "2024-05-01T09:00:03.000003") (py "7d2a6c33")
                 declined_body;
               Start (py "7d2a6c33") (py "2024-05-01T09:00:04.000001")
                 (py "2024-05-01T09:00:04.000002")
                 {| sr_debug_mode := false |}]
              two_sessions (py "7d2a6c33") r E)
    as (r' & H' & _ & _ & _ & Hd & _).
  exists r, r'. split; [reflexivity|]. split; [exact H'|exact Hd].
Defined.

Lemma insert_log_then_fetch_witness :
  In {| step := py "CONFIRM";
        level := py "INFO";
        le_message := py "사용자 확인 결과";
        payload := Some [(py "is_confirmed", PyBool true)];
        created_at := py "2024-05-01T09:00:02.000001" |}
     (fetch_logs
        (insert_log two_sessions (py "2024-05-01T09:00:02.000001")
           (py "0b4c9f1e") (py "CONFIRM") (py "INFO") (py "사용자 확인 결과")
           (Some [(py "is_confirmed", PyBool true)]))
        (Some (py "0b4c9f1e"))).
Proof.
  destruct (insert_log_then_fetch two_sessions
              (py "2024-05-01T09:00:02.000001") (py "0b4c9f1e")
              (py "CONFIRM") (py "INFO") (py "사용자 확인 결과")
              (Some [(py "is_confirmed", PyBool true)]))
    as (_ & Hsession & _).
  apply Hsession. vm_compute. discriminate.
Defined.

Lemma transcribe_audio_answer_witness :
  WhisperService.transcribe_audio true
    (fun _ _ _ => WhisperService.Transcript (Some (PyStr fallen_lamp)))
    (fun _ => py "9f86d081884c7d65") [] (py "memo.wav") None
  = WhisperService.placeholder (py "memo.wav") (py "9f86d081").
Proof.
  destruct (transcribe_audio_answer true
              (fun _ _ _ =>
                 WhisperService.Transcript (Some (PyStr fallen_lamp)))
              (fun _ => py "9f86d081884c7d65") [] (py "memo.wav") None)
    as (_ & Hfallback & _).
  rewrite Hfallback; [vm_compute; reflexivity|].
  right. left. reflexivity.
Defined.

Lemma speaker_transcripts_witness :
  SttWhisper.transcribe_file
    (fun _ _ _ => SttWhisper.RespStr fallen_lamp)
    (fun _ => SttWhisper.Missing) (py "memo.wav") (py "ko")
  = [].
Proof.
  destruct (speaker_transcripts
              (fun _ _ _ => SttWhisper.RespStr fallen_lamp))
    as (_ & _ & _ & Hmissing & _).
  apply Hmissing. left. reflexivity.
Defined.

Lemma split_into_chunks_tiles_witness :
  let fs := fun _ : str => Vad.Decodes [1200; 800; 2500]%Z in
  let split := fun (sound : list Z) (_ _ _ : Z) => Some sound in
  exists infos first second,
    Vad.split_into_chunks (fun ms : Z => ms) (fun ms : Z => ms) fs split
      (py "memo.wav") 700 (-40) 300
    = Vad.Returns infos /\
    nth_error infos 0 = Some first /\
    nth_error infos 1 = Some second /\
    Vad.end_sec first = Vad.start_sec second.
Proof.
  cbv zeta.
  destruct (split_into_chunks_tiles (fun ms : Z => ms) (fun ms : Z => ms)
              (fun _ : str => Vad.Decodes [1200; 800; 2500]%Z)
              (fun (sound : list Z) (_ _ _ : Z) => Some sound)
              (py "memo.wav") 700 (-40) 300)
    as (_ & _ & _ & Hreturns).
  destruct (Hreturns [1200; 800; 2500]%Z [1200; 800; 2500]%Z
              eq_refl eq_refl)
    as (infos & Hret & _ & _ & _ & Hnext).
  pose proof Hret as Hinfos. cbn in Hinfos. injection Hinfos as Hinfos.
  exists infos. rewrite <- Hinfos in *.
  eexists _, _. split; [exact Hret|]. split; [reflexivity|].
  split; [reflexivity|].
  apply (Hnext 0%nat _ _ eq_refl eq_refl).
Defined.

Lemma trim_silence_bounds_witness :
  Vad.trim_silence 300 (fun _ => true) 200 = Vad.Whole /\
  Vad.trim_silence 3000 (fun _ => false) 200 = Vad.Slice 0 3000.
Proof.
  destruct (trim_silence_bounds 300 (fun _ => true) 200) as (Hshort & _).
  destruct (trim_silence_bounds 3000 (fun _ => false) 200)
    as (_ & Hsilent & _).
  split.
  - apply Hshort. lia.
  - apply Hsilent; [lia|reflexivity].
Defined.

Lemma trim_silence_keeps_loud_witness :
  let loud := fun ms => ((1000 <=? ms) && (ms <? 2000))%Z in
  Vad.trim_silence 3000 loud 200 = Vad.Slice 800 2190 /\
  (800 <= 1500 /\ 1500 + 10 <= 2190)%Z.
Proof.
  cbv zeta.
  assert (H : Vad.trim_silence 3000
                (fun ms => ((1000 <=? ms) && (ms <? 2000))%Z) 200
              = Vad.Slice 800 2190) by (vm_compute; reflexivity).
  split; [exact H|].
  apply (proj2 (@trim_silence_keeps_loud 3000
                  (fun ms => ((1000 <=? ms) && (ms <? 2000))%Z)
                  200 800 2190 eq_refl ltac:(lia) ltac:(lia) H) 1500%Z);
    [lia|reflexivity|reflexivity].
Defined.

Lemma conversation_trail_witness :
  let t := fun i : nat => py "2024-05-01T09:10:0" ++ [(48 + N.of_nat i)%N] in
  exists r,
    find_session
      (serve_all ascii_lower_cp two_sessions
         (conversation (py "c51e0a9d") t false 2048 fallen_lamp false
            declined_body))
      (py "c51e0a9d") = Some r /\
    s_status r = py "COMPLETED".
Proof.
  cbv zeta.
  destruct (@conversation_trail ascii_lower_cp two_sessions (py "c51e0a9d")
              (fun i : nat => py "2024-05-01T09:10:0" ++ [(48 + N.of_nat i)%N])
              false 2048%Z fallen_lamp false declined_body)
    as (_ & _ & r & Hr & Hs & _).
  - vm_compute. reflexivity.
  - vm_compute. discriminate.
  - exists r. split; [exact Hr|exact Hs].
Defined.

Lemma fetch_logs_insertion_order_witness :
  StronglySorted created_lt (log_entry two_sessions) /\
  fetch_logs two_sessions (Some (py "7d2a6c33"))
  = map select_columns
      (where_session (Some (py "7d2a6c33")) (log_entry two_sessions)).
Proof.
  assert (H : StronglySorted created_lt (log_entry two_sessions)).
  { unfold two_sessions, start_conversation, create_session.
    cbn [find_session init_db conversation_session find snd insert_log
         log_entry app str_eqb s_session_uuid].
    change (str_eqb (py "0b4c9f1e") (py "7d2a6c33")) with false.
    cbn [snd insert_log log_entry app].
    repeat constructor. }
  split; [exact H|]. now apply fetch_logs_insertion_order.
Defined.
